(** * NationCraft: the nation simulation and decision engine

    A shallow embedding of [src/main.py]: the persistence layer
    ([DatabaseManager]) and the turn engine held by [NationCraftGUI]
    (statistics, effect application, turn and year counters, game over
    detection, save, load and score recording).  Widgets, window layout
    and message boxes carry no engine state and are left out; every place
    where the source calls into them is marked in a comment. *)

From Stdlib Require Import ZArith List String Bool Lia.
From Stdlib Require Import Permutation Sorted.
Import ListNotations.

Local Open Scope string_scope.
Local Open Scope list_scope.
Local Open Scope Z_scope.

(** ** Python values used by the program *)

Module Py.

(** The exceptions the modelled code can raise. *)
Inductive exn : Type :=
| IndexError
| KeyError (key : string)
| TypeError.

Inductive result (A : Type) : Type :=
| Ok (a : A)
| Raise (e : exn).
Arguments Ok {A} a.
Arguments Raise {A} e.

(** A [dict] with string keys.  Python dictionaries iterate in insertion
    order and [check_game_over] depends on that order, so a dictionary is
    an association list with unique keys, oldest key first. *)
Definition dict (V : Type) : Type := list (string * V).

Fixpoint get {V : Type} (d : dict V) (k : string) : option V :=
  match d with
  | [] => None
  | (k', v) :: d' => if String.eqb k' k then Some v else get d' k
  end.

(** [k in d] *)
Definition mem {V : Type} (d : dict V) (k : string) : bool :=
  match get d k with
  | Some _ => true
  | None => false
  end.

(** [d[k]], raising [KeyError] on a missing key. *)
Definition getitem {V : Type} (d : dict V) (k : string) : result V :=
  match get d k with
  | Some v => Ok v
  | None => Raise (KeyError k)
  end.

(** [d[k] = v]: an existing key keeps its position, a new key goes last. *)
Fixpoint set {V : Type} (d : dict V) (k : string) (v : V) : dict V :=
  match d with
  | [] => [(k, v)]
  | (k', v') :: d' =>
      if String.eqb k' k then (k', v) :: d' else (k', v') :: set d' k v
  end.

Definition keys {V : Type} (d : dict V) : list string := map fst d.
Definition values {V : Type} (d : dict V) : list V := map snd d.

(** [l[i]] on a list: a negative index counts from the end, and an index
    outside [-len l, len l) raises [IndexError]. *)
Definition index {A : Type} (l : list A) (i : Z) : result A :=
  let n := Z.of_nat (List.length l) in
  let j := if i <? 0 then i + n else i in
  if (j <? 0) || (n <=? j) then Raise IndexError
  else match nth_error l (Z.to_nat j) with
       | Some a => Ok a
       | None => Raise IndexError
       end.

End Py.

(** ** Event data *)

(** One decision option: the dictionary with keys ["text"], ["effects"]
    and ["reason"].  Effects map stat names to signed integer changes. *)
Record GameOption : Type := {
  text : string;
  effects : Py.dict Z;
  reason : string
}.

(** An entry of the list [default_events] in [populate_default_events]. *)
Record seed_event : Type := {
  seed_category : string;
  seed_title : string;
  seed_description : string;
  seed_options : list GameOption
}.

(** The dictionary returned by [get_random_event]. *)
Record Event : Type := {
  title : string;
  description : string;
  options : list GameOption
}.

(** The [game_state] dictionary exchanged with [save_game] and [load_game]. *)
Record GameState : Type := {
  gs_country_name : string;
  gs_current_year : Z;
  gs_current_turn : Z;
  gs_stats : Py.dict Z
}.

(** The [score_data] dictionary handed to [save_high_score]. *)
Record ScoreData : Type := {
  sd_player_name : string;
  sd_country_name : string;
  sd_years_survived : Z;
  sd_turns_survived : Z;
  sd_final_stats : Py.dict Z;
  sd_cause_of_downfall : string
}.

Notation "'let*' x ':=' e 'in' k" :=
  (match e with
   | Py.Ok x => k
   | Py.Raise err => Py.Raise err
   end)
  (at level 10, x name, e at level 100, k at level 200, only parsing).

(** ** The database *)

Module DatabaseManager.

(** Rows of the three tables created by [init_database].  Integer
    columns are unbounded integers here (the 64-bit limit of the columns
    is the hypothesis [storable] where a statement needs it); timestamps
    are readings of the
    database clock. *)
Module GameSessions.
Record row : Type := {
  id : Z;
  save_name : string;
  country_name : string;
  current_year : Z;
  current_turn : Z;
  economy : Z;
  happiness : Z;
  stability : Z;
  relations : Z;
  military_power : Z;
  environment : Z;
  created_at : Z;
  updated_at : Z
}.
End GameSessions.

Module HighScores.
Record row : Type := {
  id : Z;
  player_name : string;
  country_name : string;
  years_survived : Z;
  turns_survived : Z;
  final_economy : Z;
  final_happiness : Z;
  final_stability : Z;
  final_relations : Z;
  cause_of_downfall : string;
  achieved_at : Z
}.
End HighScores.

(** The [options] column holds [json.dumps] of the option list and is
    read back with [json.loads]; on lists of dictionaries of strings and
    integers that round trip is the identity, so the column keeps the
    list itself. *)
Module GameEvents.
Record row : Type := {
  id : Z;
  category : string;
  title : string;
  description : string;
  options : list GameOption;
  difficulty_level : string;
  created_at : Z
}.
End GameEvents.

(** The database file: each table in rowid order, the AUTOINCREMENT
    counter of each table (the largest id handed out so far) and the
    clock read by [CURRENT_TIMESTAMP]. *)
Record DB : Type := {
  game_sessions : list GameSessions.row;
  game_sessions_seq : Z;
  high_scores : list HighScores.row;
  high_scores_seq : Z;
  game_events : list GameEvents.row;
  game_events_seq : Z;
  clock : Z
}.

(** A database file that does not exist yet, after the three
    [CREATE TABLE IF NOT EXISTS] statements. *)
Definition empty_db (now : Z) : DB :=
  {| game_sessions := []; game_sessions_seq := 0;
     high_scores := []; high_scores_seq := 0;
     game_events := []; game_events_seq := 0;
     clock := now |}.

(** The list [default_events] of [populate_default_events], entry by
    entry. *)
Definition default_events : list seed_event :=
  [
  {| seed_category := "economy";
     seed_title := "Auto Industry Strike";
     seed_description := "A major strike has broken out in the automobile industry. Workers demand higher wages and better working conditions. Production has halted at major plants.";
     seed_options := [
      {| text := "Approve higher wages immediately";
         effects := [("economy", (-10)); ("happiness", 20); ("stability", 5)];
         reason := "Higher wages strain the budget but boost worker morale and loyalty. Quick resolution prevents prolonged disruption." |};
      {| text := "Reject demands and deploy police";
         effects := [("economy", 5); ("happiness", (-15)); ("stability", (-10))];
         reason := "Forceful suppression saves money short-term but creates deep resentment and potential for future unrest." |};
      {| text := "Negotiate for partial wage increase";
         effects := [("economy", (-5)); ("happiness", 10); ("stability", 5)];
         reason := "Compromise shows leadership while balancing economic concerns. Both sides make concessions." |};
      {| text := "Offer alternative benefits package";
         effects := [("economy", (-3)); ("happiness", 8); ("relations", 3)];
         reason := "Creative solutions like healthcare or training programs cost less than wages but still address worker concerns." |} ] |};
  {| seed_category := "diplomacy";
     seed_title := "Border Dispute Escalation";
     seed_description := "A neighboring country has moved troops near your eastern border, claiming historical territorial rights. International observers are watching closely.";
     seed_options := [
      {| text := "Deploy military to the border";
         effects := [("military_power", 10); ("relations", (-15)); ("economy", (-8))];
         reason := "Military posturing shows strength but escalates tensions and drains resources for deployment and maintenance." |};
      {| text := "Request UN mediation";
         effects := [("relations", 8); ("stability", 5); ("economy", (-3))];
         reason := "Diplomatic approach enhances international standing and provides neutral arbitration, though it requires funding." |};
      {| text := "Offer territorial compromise";
         effects := [("relations", 15); ("happiness", (-10)); ("stability", (-5))];
         reason := "Peaceful resolution improves diplomatic ties but appears weak to citizens who view it as giving up sovereign land." |};
      {| text := "Impose targeted economic sanctions";
         effects := [("economy", (-5)); ("relations", (-8)); ("stability", 3)];
         reason := "Economic pressure shows resolve without military action, but reduces trade and may hurt your own economy." |} ] |};
  {| seed_category := "environment";
     seed_title := "Industrial Pollution Crisis";
     seed_description := "Several major factories have been releasing toxic chemicals into the air and water. Environmental groups are protesting, and public health concerns are rising.";
     seed_options := [
      {| text := "Immediately shut down polluting factories";
         effects := [("environment", 20); ("economy", (-15)); ("happiness", (-8))];
         reason := "Decisive environmental action prevents health disasters but causes massive job losses and economic disruption." |};
      {| text := "Implement gradual emission standards";
         effects := [("environment", 8); ("economy", (-5)); ("happiness", 5)];
         reason := "Balanced approach gives companies time to adapt while showing environmental commitment. Moderate costs for all." |};
      {| text := "Ignore environmental concerns";
         effects := [("economy", 5); ("environment", (-10)); ("happiness", (-12)); ("stability", (-8))];
         reason := "Prioritizing industry over environment leads to health crises, public outrage, and long-term ecological damage." |};
      {| text := "Invest heavily in green technology subsidies";
         effects := [("environment", 15); ("economy", (-10)); ("relations", 8)];
         reason := "Forward-thinking investment creates jobs in new sectors and improves international image, but requires significant upfront costs." |} ] |};
  {| seed_category := "politics";
     seed_title := "Government Corruption Scandal";
     seed_description := "Investigative journalists have exposed a major corruption ring involving high-ranking government officials and defense contractors. The media is demanding accountability.";
     seed_options := [
      {| text := "Launch comprehensive investigation";
         effects := [("stability", 15); ("happiness", 10); ("economy", (-5))];
         reason := "Transparent accountability restores public trust and strengthens institutions, though investigations are costly and time-consuming." |};
      {| text := "Attempt to suppress the story";
         effects := [("stability", (-15)); ("happiness", (-20)); ("economy", 5)];
         reason := "Cover-up attempts backfire when exposed, creating deeper scandals and destroying credibility with the public." |};
      {| text := "Quietly remove officials without fanfare";
         effects := [("stability", 5); ("happiness", (-5)); ("economy", 3)];
         reason := "Minimal response addresses the immediate problem but doesn't satisfy demands for justice and transparency." |};
      {| text := "Blame opposition and deflect";
         effects := [("stability", (-8)); ("happiness", (-10)); ("relations", (-5))];
         reason := "Political deflection appears defensive and dishonest, damaging relationships with both domestic opposition and international partners." |} ] |};
  {| seed_category := "military";
     seed_title := "Defense Modernization Pressure";
     seed_description := "Military leaders warn that neighboring countries are advancing their weapons systems. They request significant budget increases for modernization programs.";
     seed_options := [
      {| text := "Approve major defense spending increase";
         effects := [("military_power", 15); ("economy", (-12)); ("stability", 8)];
         reason := "Strong military deters threats and reassures citizens, but diverts funds from civilian programs and increases deficit spending." |};
      {| text := "Maintain current defense budget";
         effects := [("military_power", (-5)); ("stability", 3); ("happiness", 5)];
         reason := "Fiscal responsibility pleases taxpayers but may leave military outdated, potentially creating security vulnerabilities." |};
      {| text := "Reduce defense spending for social programs";
         effects := [("economy", 10); ("military_power", (-15)); ("stability", (-8))];
         reason := "Reallocation helps civilian needs but weakens defense capabilities and may alarm military leadership and allies." |};
      {| text := "Seek international defense partnerships";
         effects := [("military_power", 8); ("relations", (-5)); ("economy", 3)];
         reason := "Shared defense costs reduce expenses but create dependency on allies and may compromise strategic autonomy." |} ] |};
  {| seed_category := "economy";
     seed_title := "Economic Recession Warning";
     seed_description := "Economic indicators show the country is entering a recession. Unemployment is rising, businesses are closing, and consumer confidence is at a five-year low.";
     seed_options := [
      {| text := "Launch massive stimulus package";
         effects := [("economy", 15); ("happiness", 10); ("stability", 5)];
         reason := "Government spending jumpstarts economic activity and provides immediate relief, but increases national debt significantly." |};
      {| text := "Implement austerity measures";
         effects := [("economy", (-5)); ("happiness", (-10)); ("stability", (-5))];
         reason := "Fiscal restraint may worsen short-term conditions but aims for long-term stability by reducing government debt burden." |};
      {| text := "Increase taxes on wealthy individuals";
         effects := [("economy", 8); ("happiness", (-8)); ("stability", (-3))];
         reason := "Revenue from high earners funds programs but may discourage investment and create capital flight among the wealthy." |};
      {| text := "Attract foreign investment with incentives";
         effects := [("economy", 12); ("relations", (-3)); ("stability", 3)];
         reason := "Foreign capital creates jobs and growth but may create dependency and concerns about national economic sovereignty." |} ] |};
  {| seed_category := "social";
     seed_title := "Healthcare System Crisis";
     seed_description := "Hospitals are overwhelmed, medical staff are burned out, and critical supplies are running short. Citizens are demanding immediate healthcare system reforms.";
     seed_options := [
      {| text := "Massively increase healthcare funding";
         effects := [("happiness", 15); ("economy", (-10)); ("stability", 8)];
         reason := "Investment in healthcare saves lives and improves quality of life but requires significant budget reallocation or new taxes." |};
      {| text := "Privatize significant portions of healthcare";
         effects := [("economy", 8); ("happiness", (-12)); ("stability", (-5))];
         reason := "Market solutions may improve efficiency and reduce government costs but limit access for lower-income citizens." |};
      {| text := "Implement gradual healthcare reforms";
         effects := [("happiness", 8); ("economy", (-5)); ("stability", 3)];
         reason := "Step-by-step improvements balance budget concerns with healthcare needs but may not address urgent crisis fast enough." |};
      {| text := "Import healthcare workers and expand medical training";
         effects := [("happiness", 10); ("economy", (-8)); ("relations", 5)];
         reason := "Expanding healthcare capacity through immigration and education provides long-term solutions but requires time and investment." |} ] |} ].

(** *** Table updates *)

Definition with_game_events (db : DB) (rows : list GameEvents.row) (seq : Z) : DB :=
  {| game_sessions := game_sessions db; game_sessions_seq := game_sessions_seq db;
     high_scores := high_scores db; high_scores_seq := high_scores_seq db;
     game_events := rows; game_events_seq := seq;
     clock := clock db |}.

Definition with_game_sessions (db : DB) (rows : list GameSessions.row) (seq : Z) : DB :=
  {| game_sessions := rows; game_sessions_seq := seq;
     high_scores := high_scores db; high_scores_seq := high_scores_seq db;
     game_events := game_events db; game_events_seq := game_events_seq db;
     clock := clock db |}.

Definition with_high_scores (db : DB) (rows : list HighScores.row) (seq : Z) : DB :=
  {| game_sessions := game_sessions db; game_sessions_seq := game_sessions_seq db;
     high_scores := rows; high_scores_seq := seq;
     game_events := game_events db; game_events_seq := game_events_seq db;
     clock := clock db |}.

(** Time passing between two statements. *)
Definition with_clock (db : DB) (now : Z) : DB :=
  {| game_sessions := game_sessions db; game_sessions_seq := game_sessions_seq db;
     high_scores := high_scores db; high_scores_seq := high_scores_seq db;
     game_events := game_events db; game_events_seq := game_events_seq db;
     clock := now |}.

(** [INSERT INTO game_events (category, title, description, options)]:
    the id comes from AUTOINCREMENT, the other two columns from their
    defaults. *)
Definition insert_event (db : DB) (event : seed_event) : DB :=
  let new_id := game_events_seq db + 1 in
  with_game_events db
    (game_events db ++
     [ {| GameEvents.id := new_id;
          GameEvents.category := seed_category event;
          GameEvents.title := seed_title event;
          GameEvents.description := seed_description event;
          GameEvents.options := seed_options event;
          GameEvents.difficulty_level := "normal";
          GameEvents.created_at := clock db |} ])
    new_id.

(** [SELECT COUNT( * ) FROM game_events] *)
Definition count_events (db : DB) : Z := Z.of_nat (List.length (game_events db)).

Definition populate_default_events (db : DB) : DB :=
  if count_events db >? 0 then db
  else fold_left insert_event default_events db.

(** The tables exist in every [DB], so the three
    [CREATE TABLE IF NOT EXISTS] statements change nothing. *)
Definition init_database (db : DB) : DB := populate_default_events db.

(** [INSERT OR REPLACE INTO game_sessions]: [save_name] is UNIQUE, so
    the rows already stored under that name are deleted before the new
    row is appended under a fresh id. *)
Definition save_game (save_name : string) (game_state : GameState) (db : DB)
  : Py.result DB :=
  let stats := gs_stats game_state in
  let* economy := Py.getitem stats "economy" in
  let* happiness := Py.getitem stats "happiness" in
  let* stability := Py.getitem stats "stability" in
  let* relations := Py.getitem stats "relations" in
  let* military_power := Py.getitem stats "military_power" in
  let* environment := Py.getitem stats "environment" in
  let new_id := game_sessions_seq db + 1 in
  let kept :=
    filter (fun r => negb (String.eqb (GameSessions.save_name r) save_name))
           (game_sessions db) in
  Py.Ok (with_game_sessions db
    (kept ++
     [ {| GameSessions.id := new_id;
          GameSessions.save_name := save_name;
          GameSessions.country_name := gs_country_name game_state;
          GameSessions.current_year := gs_current_year game_state;
          GameSessions.current_turn := gs_current_turn game_state;
          GameSessions.economy := economy;
          GameSessions.happiness := happiness;
          GameSessions.stability := stability;
          GameSessions.relations := relations;
          GameSessions.military_power := military_power;
          GameSessions.environment := environment;
          GameSessions.created_at := clock db;
          GameSessions.updated_at := clock db |} ])
    new_id).

(** [SELECT * FROM game_sessions WHERE save_name = ?] and [fetchone];
    [None] when there is no such row. *)
Definition load_game (save_name : string) (db : DB) : option GameState :=
  match find (fun r => String.eqb (GameSessions.save_name r) save_name)
             (game_sessions db) with
  | None => None
  | Some row =>
      Some {| gs_country_name := GameSessions.country_name row;
              gs_current_year := GameSessions.current_year row;
              gs_current_turn := GameSessions.current_turn row;
              gs_stats :=
                [ ("economy", GameSessions.economy row);
                  ("happiness", GameSessions.happiness row);
                  ("stability", GameSessions.stability row);
                  ("relations", GameSessions.relations row);
                  ("military_power", GameSessions.military_power row);
                  ("environment", GameSessions.environment row) ] |}
  end.

(** [INSERT INTO high_scores]: nine columns are given, the id and
    [achieved_at] are filled in by the database. *)
Definition save_high_score (score_data : ScoreData) (db : DB) : Py.result DB :=
  let final_stats := sd_final_stats score_data in
  let* economy := Py.getitem final_stats "economy" in
  let* happiness := Py.getitem final_stats "happiness" in
  let* stability := Py.getitem final_stats "stability" in
  let* relations := Py.getitem final_stats "relations" in
  let new_id := high_scores_seq db + 1 in
  Py.Ok (with_high_scores db
    (high_scores db ++
     [ {| HighScores.id := new_id;
          HighScores.player_name := sd_player_name score_data;
          HighScores.country_name := sd_country_name score_data;
          HighScores.years_survived := sd_years_survived score_data;
          HighScores.turns_survived := sd_turns_survived score_data;
          HighScores.final_economy := economy;
          HighScores.final_happiness := happiness;
          HighScores.final_stability := stability;
          HighScores.final_relations := relations;
          HighScores.cause_of_downfall := sd_cause_of_downfall score_data;
          HighScores.achieved_at := clock db |} ])
    new_id).

(** *** The leaderboard query *)

(** The tuple selected by [get_leaderboard]: player_name, country_name,
    years_survived, turns_survived, cause_of_downfall, achieved_at. *)
Definition leaderboard_entry : Type := (string * string * Z * Z * string * Z)%type.

Definition leaderboard_tuple (r : HighScores.row) : leaderboard_entry :=
  (HighScores.player_name r, HighScores.country_name r,
   HighScores.years_survived r, HighScores.turns_survived r,
   HighScores.cause_of_downfall r, HighScores.achieved_at r).

(** [ORDER BY years_survived DESC, turns_survived DESC]: row [a] may
    stand before row [b]. *)
Definition score_before (a b : HighScores.row) : Prop :=
  HighScores.years_survived a > HighScores.years_survived b \/
  (HighScores.years_survived a = HighScores.years_survived b /\
   HighScores.turns_survived a >= HighScores.turns_survived b).

(** [LIMIT ?]: a negative limit means no limit in SQLite. *)
Definition sql_limit {A : Type} (limit : Z) (rows : list A) : list A :=
  if limit <? 0 then rows else firstn (Z.to_nat limit) rows.

(** The answers that the two sort keys alone allow: any arrangement of
    the table that is sorted on the two keys, cut at the limit.  The
    answer SQLite gives, [get_leaderboard_rows] below, is one of them, so
    what holds for every such answer holds for the query. *)
Definition select_leaderboard (db : DB) (limit : Z) (rows : list HighScores.row) : Prop :=
  exists sorted,
    Permutation (high_scores db) sorted /\
    StronglySorted score_before sorted /\
    rows = sql_limit limit sorted.

Definition get_leaderboard (db : DB) (limit : Z) (out : list leaderboard_entry) : Prop :=
  exists rows, select_leaderboard db limit rows /\ out = map leaderboard_tuple rows.

(** How SQLite runs [ORDER BY years_survived DESC, turns_survived DESC
    LIMIT ?]: the table is scanned in rowid order and every row is put
    into a sorted index whose key is the two sort columns followed by the
    number of the row in the scan.  [sorts_before a b]: the two columns
    of [a] come strictly before those of [b]. *)
Definition sorts_before (a b : HighScores.row) : bool :=
  (HighScores.years_survived b <? HighScores.years_survived a) ||
  ((HighScores.years_survived a =? HighScores.years_survived b) &&
   (HighScores.turns_survived b <? HighScores.turns_survived a)).

(** The row scanned next has the largest scan number so far: it goes in
    front of the first entry whose columns come strictly after its own,
    behind every entry with the same columns. *)
Fixpoint index_insert (r : HighScores.row) (index : list HighScores.row)
  : list HighScores.row :=
  match index with
  | [] => [r]
  | x :: rest => if sorts_before r x then r :: x :: rest else x :: index_insert r rest
  end.

Definition sorted_index (rows : list HighScores.row) : list HighScores.row :=
  fold_left (fun index r => index_insert r index) rows [].

(** [get_leaderboard]: the rows [fetchall] returns. *)
Definition get_leaderboard_rows (db : DB) (limit : Z) : list leaderboard_entry :=
  map leaderboard_tuple (sql_limit limit (sorted_index (high_scores db))).

(** [SELECT title, description, options FROM game_events ORDER BY
    RANDOM() LIMIT 1]: [rnd] is the random draw. *)
Definition get_random_event (rnd : nat) (db : DB) : option Event :=
  match game_events db with
  | [] => None
  | rows =>
      match nth_error rows (Nat.modulo rnd (List.length rows)) with
      | None => None
      | Some row =>
          Some {| title := GameEvents.title row;
                  description := GameEvents.description row;
                  options := GameEvents.options row |}
      end
  end.

(** *** The list of saved games *)

(** The tuple selected by [get_saved_games]: save_name, country_name,
    current_year, updated_at. *)
Definition saved_game_entry : Type := (string * string * Z * Z)%type.

Definition saved_game_tuple (r : GameSessions.row) : saved_game_entry :=
  (GameSessions.save_name r, GameSessions.country_name r,
   GameSessions.current_year r, GameSessions.updated_at r).

(** [ORDER BY updated_at DESC]: row [a] may stand before row [b]. *)
Definition updated_before (a b : GameSessions.row) : Prop :=
  GameSessions.updated_at a >= GameSessions.updated_at b.

(** [get_saved_games]: as for the leaderboard, the query names one sort
    key, so every arrangement of the table sorted on it is a possible
    answer. *)
Definition get_saved_games (db : DB) (out : list saved_game_entry) : Prop :=
  exists sorted,
    Permutation (game_sessions db) sorted /\
    StronglySorted updated_before sorted /\
    out = map saved_game_tuple sorted.

End DatabaseManager.

(** ** The game *)

Module NationCraftGUI.

Import DatabaseManager.

(** The engine state held by the application object. *)
Record Game : Type := {
  db : DB;
  stats : Py.dict Z;
  current_year : Z;
  current_turn : Z;
  country_name : string;
  player_name : string;
  current_event : option Event
}.

Definition set_db (g : Game) (d : DB) : Game :=
  {| db := d; stats := stats g; current_year := current_year g;
     current_turn := current_turn g; country_name := country_name g;
     player_name := player_name g; current_event := current_event g |}.

Definition set_stats (g : Game) (s : Py.dict Z) : Game :=
  {| db := db g; stats := s; current_year := current_year g;
     current_turn := current_turn g; country_name := country_name g;
     player_name := player_name g; current_event := current_event g |}.

Definition set_current_year (g : Game) (y : Z) : Game :=
  {| db := db g; stats := stats g; current_year := y;
     current_turn := current_turn g; country_name := country_name g;
     player_name := player_name g; current_event := current_event g |}.

Definition set_current_turn (g : Game) (t : Z) : Game :=
  {| db := db g; stats := stats g; current_year := current_year g;
     current_turn := t; country_name := country_name g;
     player_name := player_name g; current_event := current_event g |}.

Definition set_current_event (g : Game) (e : option Event) : Game :=
  {| db := db g; stats := stats g; current_year := current_year g;
     current_turn := current_turn g; country_name := country_name g;
     player_name := player_name g; current_event := e |}.

(** Methods mutate the object and may raise: a method is a function from
    the state before the call to its outcome and the state it leaves
    behind, also when it raises. *)
Definition M (A : Type) : Type := Game -> Py.result A * Game.

Definition ret {A : Type} (a : A) : M A := fun g => (Py.Ok a, g).

Definition bind {A B : Type} (m : M A) (k : A -> M B) : M B :=
  fun g =>
    match m g with
    | (Py.Ok a, g') => k a g'
    | (Py.Raise e, g') => (Py.Raise e, g')
    end.

Definition lift {A : Type} (r : Py.result A) : M A := fun g => (r, g).

Definition self : M Game := fun g => (Py.Ok g, g).

Definition modify (f : Game -> Game) : M unit := fun g => (Py.Ok tt, f g).

Notation "x <- m ;; k" := (bind m (fun x => k))
  (at level 61, m at next level, right associativity).
Notation "m ;;; k" := (bind m (fun _ => k))
  (at level 61, right associativity).

(** The six statistics of a new game, in the order the dictionary literal
    lists them. *)
Definition new_stats : Py.dict Z :=
  [ ("economy", 50); ("happiness", 50); ("stability", 50);
    ("relations", 50); ("military_power", 50); ("environment", 50) ].

(** [__init__]: opens the database and sets the initial game state. *)
Definition init (file : DB) : Game :=
  {| db := init_database file;
     stats := new_stats;
     current_year := 2024;
     current_turn := 0;
     country_name := "";
     player_name := "";
     current_event := None |}.

(** [load_next_event]: draws the next event.  When the catalog is empty
    an error box is shown and [current_event] stays [None]; the rest of
    the method builds widgets. *)
Definition load_next_event (rnd : nat) : M unit :=
  modify (fun g => set_current_event g (get_random_event rnd (db g))).

(** [setup_game_interface]: builds the game window and loads the first
    event. *)
Definition setup_game_interface (rnd : nat) : M unit := load_next_event rnd.

(** [new_game_setup.start_game]; the two arguments are the entry texts
    after [strip]. *)
Definition start_game (player_entry country_entry : string) (rnd : nat) : M unit :=
  modify (fun g =>
    {| db := db g;
       stats := new_stats;
       current_year := 2024;
       current_turn := 0;
       country_name := if String.eqb country_entry "" then "United Republic" else country_entry;
       player_name := if String.eqb player_entry "" then "President" else player_entry;
       current_event := current_event g |}) ;;;
  setup_game_interface rnd.

(** The loop of [apply_effects] over [effects.items()]. *)
Fixpoint apply_effects_loop (items : list (string * Z)) (stats : Py.dict Z) : Py.dict Z :=
  match items with
  | [] => stats
  | (stat, change) :: rest =>
      apply_effects_loop rest
        (match Py.get stats stat with
         | Some value => Py.set stats stat (Z.max 0 (Z.min 100 (value + change)))
         | None => stats
         end)
  end.

Definition apply_effects (effects : Py.dict Z) : M unit :=
  modify (fun g => set_stats g (apply_effects_loop effects (stats g))).

(** The dictionary [causes] of [check_game_over]; the messages are kept
    byte for byte. *)
Definition causes : Py.dict string :=
  [ ("economy",
     "üí∏ Economic Collapse! Your nation's economy has completely failed, leading to widespread poverty and chaos.");
    ("happiness",
     "üî• Revolution! The people have risen against your government in a massive uprising.");
    ("stability",
     "‚öîÔ∏è Military Coup! Army generals have seized power and removed you from office.");
    ("relations",
     "üåç International Isolation! Your country has become a pariah state with no allies.");
    ("military_power",
     "üè¥ Invasion! Enemy forces have conquered your nation due to weak defenses.");
    ("environment",
     "‚ò¢Ô∏è Environmental Catastrophe! The nation has become uninhabitable due to ecological collapse.") ].

(** The loop of [check_game_over] over [self.stats.items()]. *)
Fixpoint check_game_over_loop (items : list (string * Z)) : Py.result (bool * string) :=
  match items with
  | [] => Py.Ok (false, "")
  | (stat, value) :: rest =>
      if value <=? 0 then
        let* cause := Py.getitem causes stat in
        Py.Ok (true, cause)
      else check_game_over_loop rest
  end.

Definition check_game_over : M (bool * string) :=
  fun g => (check_game_over_loop (stats g), g).

(** [game_over_screen]: shows the final statistics and records the score.
    An exception of [save_high_score] is caught and shown in a label. *)
Definition game_over_screen (cause : string) : M unit :=
  fun g =>
    let score_data :=
      {| sd_player_name := player_name g;
         sd_country_name := country_name g;
         sd_years_survived := current_year g - 2024;
         sd_turns_survived := current_turn g;
         sd_final_stats := stats g;
         sd_cause_of_downfall := cause |} in
    match save_high_score score_data (db g) with
    | Py.Ok db' => (Py.Ok tt, set_db g db')
    | Py.Raise _ => (Py.Ok tt, g)
    end.

(** [self.current_event['options']]: subscripting [None] raises. *)
Definition current_options : M (list GameOption) :=
  fun g =>
    match current_event g with
    | Some event => (Py.Ok (options event), g)
    | None => (Py.Raise Py.TypeError, g)
    end.

(** [make_decision].  [show_decision_impact], [update_stats_display] and
    [update_year_display] only draw; the next event is loaded later by the
    timer ([load_next_event] is a step of its own). *)
Definition make_decision (choice_index : Z) : M unit :=
  opts <- current_options ;;
  chosen_option <- lift (Py.index opts choice_index) ;;
  apply_effects (effects chosen_option) ;;;
  modify (fun g => set_current_turn g (current_turn g + 1)) ;;;
  g <- self ;;
  (if current_turn g mod 4 =? 0
   then modify (fun g => set_current_year g (current_year g + 1))
   else ret tt) ;;;
  over <- check_game_over ;;
  if fst over then game_over_screen (snd over) else ret tt.

(** [save_game_dialog.save_game]; the argument is the entry text after
    [strip].  An empty name and an exception of [save_game] each end in an
    error box. *)
Definition save_game_dialog (save_name : string) : M unit :=
  fun g =>
    if String.eqb save_name "" then (Py.Ok tt, g)
    else
      let game_state :=
        {| gs_country_name := country_name g;
           gs_current_year := current_year g;
           gs_current_turn := current_turn g;
           gs_stats := stats g |} in
      match save_game save_name game_state (db g) with
      | Py.Ok db' => (Py.Ok tt, set_db g db')
      | Py.Raise _ => (Py.Ok tt, g)
      end.

(** [load_selected_game] *)
Definition load_selected_game (save_name : string) (rnd : nat) : M unit :=
  fun g =>
    match load_game save_name (db g) with
    | Some game_state =>
        setup_game_interface rnd
          {| db := db g;
             stats := gs_stats game_state;
             current_year := gs_current_year game_state;
             current_turn := gs_current_turn game_state;
             country_name := gs_country_name game_state;
             player_name := player_name g;
             current_event := current_event g |}
    | None => (Py.Ok tt, g)
    end.

(** One action of the player or of the environment. *)
Inductive step : Game -> Game -> Prop :=
| step_start_game (player country : string) (rnd : nat) (g : Game) :
    step g (snd (start_game player country rnd g))
| step_load_next_event (rnd : nat) (g : Game) :
    step g (snd (load_next_event rnd g))
| step_make_decision (choice_index : Z) (g : Game) :
    step g (snd (make_decision choice_index g))
| step_save_game (save_name : string) (g : Game) :
    step g (snd (save_game_dialog save_name g))
| step_load_game (save_name : string) (rnd : nat) (g : Game) :
    step g (snd (load_selected_game save_name rnd g))
| step_clock (now : Z) (g : Game) :
    step g (set_db g (with_clock (db g) now)).

(** The states the game can be in after any number of actions. *)
Inductive reachable (g0 : Game) : Game -> Prop :=
| reachable_here : reachable g0 g0
| reachable_step (g g' : Game) : reachable g0 g -> step g g' -> reachable g0 g'.

End NationCraftGUI.


(** ** Vocabulary of the specification *)

Import DatabaseManager NationCraftGUI.

(** The six stat names in canonical order. *)
Definition stat_names : list string :=
  [ "economy"; "happiness"; "stability"; "relations"; "military_power"; "environment" ].

(** The dictionary holds exactly the six statistics, in canonical order. *)
Definition wf_stats (s : Py.dict Z) : Prop := Py.keys s = stat_names.

Definition in_range (v : Z) : Prop := 0 <= v <= 100.

(** A StatVector: the six statistics, each inside [0,100]. *)
Definition StatVector (s : Py.dict Z) : Prop :=
  wf_stats s /\ Forall in_range (Py.values s).

(** Every saved session holds statistics inside [0,100]. *)
Definition session_in_range (r : GameSessions.row) : Prop :=
  in_range (GameSessions.economy r) /\ in_range (GameSessions.happiness r) /\
  in_range (GameSessions.stability r) /\ in_range (GameSessions.relations r) /\
  in_range (GameSessions.military_power r) /\ in_range (GameSessions.environment r).

Definition sessions_in_range (d : DB) : Prop :=
  Forall session_in_range (game_sessions d).

(** The state [make_decision] leaves behind once the chosen option is
    known, before the game over check. *)
Definition after_decision (chosen_option : GameOption) (g : Game) : Game :=
  let g1 := set_stats g (apply_effects_loop (effects chosen_option) (stats g)) in
  let g2 := set_current_turn g1 (current_turn g1 + 1) in
  if current_turn g2 mod 4 =? 0
  then set_current_year g2 (current_year g2 + 1)
  else g2.

(** A run of [n] successful decisions, with events drawn, the game saved
    and time passing in between. *)
Inductive decisions : nat -> Game -> Game -> Prop :=
| decisions_none (g : Game) : decisions 0 g g
| decisions_decide (n : nat) (g0 g : Game) (choice_index : Z) :
    decisions n g0 g ->
    fst (make_decision choice_index g) = Py.Ok tt ->
    decisions (S n) g0 (snd (make_decision choice_index g))
| decisions_next_event (n : nat) (g0 g : Game) (rnd : nat) :
    decisions n g0 g ->
    decisions n g0 (snd (load_next_event rnd g))
| decisions_save (n : nat) (g0 g : Game) (save_name : string) :
    decisions n g0 g ->
    decisions n g0 (snd (save_game_dialog save_name g))
| decisions_clock (n : nat) (g0 g : Game) (now : Z) :
    decisions n g0 g ->
    decisions n g0 (set_db g (with_clock (db g) now)).

(** The terminal cause in the words of the specification: the first of
    the six names, in canonical order, whose value is 0. *)
Definition first_stat_at_zero (s : Py.dict Z) : option string :=
  find (fun name => match Py.get s name with
                    | Some v => v =? 0
                    | None => false
                    end) stat_names.

(** What every step preserves: the statistics form a StatVector and the
    saved sessions are in range. *)
Definition game_inv (g : Game) : Prop :=
  StatVector (stats g) /\ sessions_in_range (db g).

(** A new game on a fresh database, waiting for the first decision. *)
Definition new_game : Game :=
  snd (start_game "Ada" "Utopia" 0 (init (empty_db 0))).

(** The reading of the specification under which [decide] rejects every
    index outside [0, n) and nothing else, leaving the game untouched when
    it does. *)
Definition rejects_exactly_outside_0_n (g : Game) (event : Event) (choice_index : Z) : Prop :=
  current_event g = Some event ->
  (fst (make_decision choice_index g) = Py.Raise Py.IndexError <->
   ~ (0 <= choice_index < Z.of_nat (List.length (options event)))) /\
  (fst (make_decision choice_index g) = Py.Raise Py.IndexError ->
   snd (make_decision choice_index g) = g).

(** Ranking in the words of the specification: by years survived, then
    by turns survived, both descending, and among full ties the record
    inserted earlier first.  [rank_insert r l] puts [r], which was inserted
    before every row of the ranked list [l], at its place;
    [score_beforeb] decides [score_before]. *)
Definition score_beforeb (a b : HighScores.row) : bool :=
  (HighScores.years_survived b <? HighScores.years_survived a) ||
  ((HighScores.years_survived a =? HighScores.years_survived b) &&
   (HighScores.turns_survived b <=? HighScores.turns_survived a)).

Fixpoint rank_insert (r : HighScores.row) (l : list HighScores.row) : list HighScores.row :=
  match l with
  | [] => [r]
  | x :: l' => if score_beforeb r x then r :: x :: l' else x :: rank_insert r l'
  end.

Definition rank_by_insertion (rows : list HighScores.row) : list HighScores.row :=
  fold_right rank_insert [] rows.

Definition topN (d : DB) (n : Z) : list leaderboard_entry :=
  map leaderboard_tuple (sql_limit n (rank_by_insertion (high_scores d))).

(** The reading of the specification under which the stored score row
    holds all six final statistics: two runs whose rows are the same then
    ended with the same six values. *)
Definition score_row_holds_six_stats (d : DB) (sd1 sd2 : ScoreData) : Prop :=
  StatVector (sd_final_stats sd1) ->
  StatVector (sd_final_stats sd2) ->
  save_high_score sd1 d = save_high_score sd2 d ->
  sd_final_stats sd1 = sd_final_stats sd2.

(** The sessions stored under a name. *)
Definition sessions_named (save_name : string) (d : DB) : list GameSessions.row :=
  filter (fun r => String.eqb (GameSessions.save_name r) save_name) (game_sessions d).

(** Two finished runs with the same years and turns survived, recorded
    one after the other. *)
Definition first_run : ScoreData :=
  {| sd_player_name := "Ada"; sd_country_name := "Utopia";
     sd_years_survived := 3; sd_turns_survived := 12;
     sd_final_stats :=
       [ ("economy", 0); ("happiness", 50); ("stability", 50);
         ("relations", 50); ("military_power", 50); ("environment", 50) ];
     sd_cause_of_downfall := "economy" |}.

Definition second_run : ScoreData :=
  {| sd_player_name := "Bob"; sd_country_name := "Utopia";
     sd_years_survived := 3; sd_turns_survived := 12;
     sd_final_stats :=
       [ ("economy", 0); ("happiness", 50); ("stability", 50);
         ("relations", 50); ("military_power", 10); ("environment", 90) ];
     sd_cause_of_downfall := "economy" |}.

Definition tied_scores : DB :=
  match save_high_score first_run (empty_db 0) with
  | Py.Ok d1 =>
      match save_high_score second_run (with_clock d1 1) with
      | Py.Ok d2 => d2
      | Py.Raise _ => d1
      end
  | Py.Raise _ => empty_db 0
  end.

(** The actions that do not save under [name]: everything but
    [save_game_dialog name]. *)
Inductive step_keeping (name : string) : Game -> Game -> Prop :=
| keeping_start_game (player country : string) (rnd : nat) (g : Game) :
    step_keeping name g (snd (start_game player country rnd g))
| keeping_load_next_event (rnd : nat) (g : Game) :
    step_keeping name g (snd (load_next_event rnd g))
| keeping_make_decision (choice_index : Z) (g : Game) :
    step_keeping name g (snd (make_decision choice_index g))
| keeping_save_other (other : string) (g : Game) :
    other <> name ->
    step_keeping name g (snd (save_game_dialog other g))
| keeping_load_game (save_name : string) (rnd : nat) (g : Game) :
    step_keeping name g (snd (load_selected_game save_name rnd g))
| keeping_clock (now : Z) (g : Game) :
    step_keeping name g (set_db g (with_clock (db g) now)).

Inductive reachable_keeping (name : string) (g0 : Game) : Game -> Prop :=
| keeping_here : reachable_keeping name g0 g0
| keeping_step (g g' : Game) :
    reachable_keeping name g0 g -> step_keeping name g g' ->
    reachable_keeping name g0 g'.

(** The ids of a table: handed out in increasing order, none above the
    AUTOINCREMENT counter. *)
Definition ids_increasing (ids : list Z) (seq : Z) : Prop :=
  StronglySorted Z.lt ids /\ Forall (fun i => i <= seq) ids.

Definition ids_ok (d : DB) : Prop :=
  ids_increasing (map GameSessions.id (game_sessions d)) (game_sessions_seq d) /\
  ids_increasing (map HighScores.id (high_scores d)) (high_scores_seq d) /\
  ids_increasing (map GameEvents.id (game_events d)) (game_events_seq d).

(** Year and turn as a game started in 2024 keeps them: one year per
    four turns. *)
Definition on_calendar (year turn : Z) : Prop :=
  0 <= turn /\ year = 2024 + turn / 4.

Definition calendar_ok (g : Game) : Prop :=
  on_calendar (current_year g) (current_turn g) /\
  Forall (fun r => on_calendar (GameSessions.current_year r)
                               (GameSessions.current_turn r))
         (game_sessions (db g)) /\
  Forall (fun r => 1 <= HighScores.turns_survived r /\
                   HighScores.years_survived r = HighScores.turns_survived r / 4)
         (high_scores (db g)).

(** An option is mild when its effects name each statistic once and
    lower none by more than 20; [mild_optionb] checks it. *)
Definition mild_option (o : GameOption) : Prop :=
  NoDup (Py.keys (effects o)) /\
  Forall (fun change => -20 <= change) (Py.values (effects o)).

Fixpoint distinct_keysb (keys : list string) : bool :=
  match keys with
  | [] => true
  | k :: rest => negb (existsb (String.eqb k) rest) && distinct_keysb rest
  end.

Definition mild_optionb (o : GameOption) : bool :=
  distinct_keysb (Py.keys (effects o)) &&
  forallb (fun change => -20 <=? change) (Py.values (effects o)).

(** Two score rows tie: same years and same turns survived. *)
Definition tied (a b : HighScores.row) : bool :=
  (HighScores.years_survived a =? HighScores.years_survived b) &&
  (HighScores.turns_survived a =? HighScores.turns_survived b).

(** An INTEGER column holds a signed 64-bit integer, and the database
    binding accepts no other: [save_game] stores a state only if its
    integers are in that range. *)
Definition int64 (v : Z) : Prop := - 2 ^ 63 <= v < 2 ^ 63.

Definition storable (game_state : GameState) : Prop :=
  int64 (gs_current_year game_state) /\
  int64 (gs_current_turn game_state) /\
  forall name v,
    In name stat_names -> Py.get (gs_stats game_state) name = Some v -> int64 v.

(** *** Tactics *)

(** Turns a dictionary with the six keys into its six named values. *)
Ltac explicit_stats s Hkeys :=
  unfold wf_stats in Hkeys;
  destruct s as [|[? ?] [|[? ?] [|[? ?] [|[? ?] [|[? ?] [|[? ?] [|]]]]]]];
  try discriminate Hkeys;
  injection Hkeys as -> -> -> -> -> ->.

(** Turns a StatVector into its six named values with their bounds. *)
Ltac explicit_StatVector s Hs :=
  let Hkeys := fresh "Hkeys" in
  let Hvals := fresh "Hvals" in
  destruct Hs as [Hkeys Hvals];
  explicit_stats s Hkeys;
  simpl in Hvals;
  repeat match goal with
         | H : Forall _ (_ :: _) |- _ => inversion H; subst; clear H
         | H : Forall _ [] |- _ => clear H
         end.

(** Decides the six tests [v =? 0] one after the other; [tac] closes the
    case in which the test under consideration succeeds. *)
Ltac first_zero_cases tac :=
  repeat match goal with
         | |- context [?v =? 0] =>
             destruct (Z.eqb_spec v 0); [solve [tac] | ]
         end.

(** Splits on the test [v <= 0] of [check_game_over] for the stat
    [name] and closes the case in which it succeeds. *)
Ltac nonpositive_case v name :=
  destruct (Z.leb_spec v 0);
  [ left; split;
    [ exists v; split; [simpl; auto 10 | assumption]
    | exists name; eexists; split; [simpl; auto 10 | split; reflexivity] ]
  | ].


(** *** Python helpers *)

Lemma keys_set {V : Type} (d : Py.dict V) (k : string) (v : V) :
  Py.get d k <> None -> Py.keys (Py.set d k v) = Py.keys d.
Proof.
  induction d as [|[k' v'] d IH]; simpl; intros Hget.
  - congruence.
  - destruct (String.eqb k' k); simpl.
    + reflexivity.
    + f_equal. apply IH, Hget.
Qed.

Lemma values_set_Forall {V : Type} (P : V -> Prop) (d : Py.dict V) (k : string) (v : V) :
  Forall P (Py.values d) -> P v -> Forall P (Py.values (Py.set d k v)).
Proof.
  induction d as [|[k' v'] d IH]; simpl; intros Hd Hv.
  - constructor; [exact Hv | constructor].
  - inversion Hd; subst.
    destruct (String.eqb k' k); simpl; constructor; auto.
Qed.

Lemma clamp_in_range (x : Z) : in_range (Z.max 0 (Z.min 100 x)).
Proof. unfold in_range. lia. Qed.

Lemma apply_effects_loop_StatVector (items : list (string * Z)) :
  forall s, StatVector s -> StatVector (apply_effects_loop items s).
Proof.
  induction items as [|[stat change] rest IH]; simpl; intros s Hs.
  - exact Hs.
  - apply IH.
    destruct (Py.get s stat) as [value|] eqn:Hget; [|exact Hs].
    destruct Hs as [Hkeys Hvals]. split.
    + unfold wf_stats. rewrite keys_set; [exact Hkeys | congruence].
    + apply values_set_Forall; [exact Hvals | apply clamp_in_range].
Qed.

Lemma new_stats_StatVector : StatVector new_stats.
Proof.
  split; [reflexivity|].
  unfold new_stats, in_range; simpl.
  repeat constructor; lia.
Qed.

(** *** What [make_decision] does, case by case *)

Lemma make_decision_unfold (choice_index : Z) (g : Game) :
  make_decision choice_index g =
  match current_event g with
  | None => (Py.Raise Py.TypeError, g)
  | Some event =>
      match Py.index (options event) choice_index with
      | Py.Raise e => (Py.Raise e, g)
      | Py.Ok chosen_option =>
          let g' := after_decision chosen_option g in
          match check_game_over_loop (stats g') with
          | Py.Raise e => (Py.Raise e, g')
          | Py.Ok (true, cause) => game_over_screen cause g'
          | Py.Ok (false, _) => (Py.Ok tt, g')
          end
      end
  end.
Proof.
  unfold make_decision, bind, current_options, lift, apply_effects, modify,
    self, check_game_over, ret, after_decision.
  destruct (current_event g) as [event|]; [|reflexivity].
  destruct (Py.index (options event) choice_index) as [opt|e]; [|reflexivity].
  cbn [fst snd current_turn set_current_turn set_stats].
  destruct (_ mod 4 =? 0);
    match goal with
    | |- context [check_game_over_loop ?s] =>
        destruct (check_game_over_loop s) as [[[] cause]|e]
    end; reflexivity.
Qed.

(** *** The range invariant *)

Lemma after_decision_stats (chosen_option : GameOption) (g : Game) :
  stats (after_decision chosen_option g) =
  apply_effects_loop (effects chosen_option) (stats g).
Proof.
  unfold after_decision. cbn [current_turn set_current_turn set_stats].
  destruct (_ mod 4 =? 0); reflexivity.
Qed.

Lemma after_decision_db (chosen_option : GameOption) (g : Game) :
  db (after_decision chosen_option g) = db g.
Proof.
  unfold after_decision. cbn [current_turn set_current_turn set_stats].
  destruct (_ mod 4 =? 0); reflexivity.
Qed.

Lemma save_high_score_sessions (score_data : ScoreData) (d d' : DB) :
  save_high_score score_data d = Py.Ok d' -> game_sessions d' = game_sessions d.
Proof.
  unfold save_high_score. intros H.
  repeat match type of H with
         | context [Py.getitem ?s ?k] => destruct (Py.getitem s k); [|discriminate]
         end.
  injection H as <-. reflexivity.
Qed.

Lemma game_over_screen_inv (cause : string) (g : Game) :
  game_inv g -> game_inv (snd (game_over_screen cause g)).
Proof.
  intros [Hs Hd]. unfold game_over_screen.
  destruct (save_high_score _ (db g)) as [d'|e] eqn:Hsave; simpl.
  - split; [exact Hs|].
    unfold sessions_in_range in *. cbn [db set_db].
    rewrite (save_high_score_sessions _ _ _ Hsave). exact Hd.
  - split; assumption.
Qed.

Lemma make_decision_inv (choice_index : Z) (g : Game) :
  game_inv g -> game_inv (snd (make_decision choice_index g)).
Proof.
  intros Hg. rewrite make_decision_unfold.
  destruct (current_event g) as [event|]; [|exact Hg].
  destruct (Py.index (options event) choice_index) as [opt|e]; [|exact Hg].
  assert (Hafter : game_inv (after_decision opt g)).
  { destruct Hg as [Hs Hd]. split.
    - rewrite after_decision_stats. apply apply_effects_loop_StatVector, Hs.
    - rewrite after_decision_db. exact Hd. }
  cbv zeta.
  destruct (check_game_over_loop _) as [[[] cause]|e]; simpl; try exact Hafter.
  apply game_over_screen_inv, Hafter.
Qed.

Lemma Forall_filter {A : Type} (P : A -> Prop) (f : A -> bool) (l : list A) :
  Forall P l -> Forall P (filter f l).
Proof.
  induction 1 as [|x l Hx Hl IH]; simpl; [constructor|].
  destruct (f x); [constructor|]; assumption.
Qed.

Lemma StatVector_getitem (s : Py.dict Z) (name : string) :
  StatVector s -> In name stat_names ->
  exists v, Py.getitem s name = Py.Ok v /\ in_range v.
Proof.
  intros [Hkeys Hvals] Hin.
  destruct s as [|[k1 v1] [|[k2 v2] [|[k3 v3] [|[k4 v4] [|[k5 v5] [|[k6 v6] [|]]]]]]];
    try discriminate Hkeys.
  injection Hkeys as -> -> -> -> -> ->.
  simpl in Hvals.
  repeat match goal with
         | H : Forall _ (_ :: _) |- _ => inversion H; subst; clear H
         end.
  simpl in Hin.
  repeat destruct Hin as [<-|Hin]; try contradiction;
    eexists; (split; [reflexivity | assumption]).
Qed.

Lemma save_game_inv (save_name : string) (game_state : GameState) (d d' : DB) :
  StatVector (gs_stats game_state) -> sessions_in_range d ->
  save_game save_name game_state d = Py.Ok d' -> sessions_in_range d'.
Proof.
  intros Hs Hd Hsave. unfold save_game in Hsave.
  repeat match type of Hsave with
         | context [Py.getitem ?s ?k] =>
             let Hv := fresh "Hv" in
             let Hk := fresh "Hk" in
             assert (Hk : In k stat_names) by (simpl; auto 10);
             let Hx := fresh "Hx" in
             destruct (StatVector_getitem s k Hs Hk) as (? & Hx & Hv);
             rewrite Hx in Hsave; clear Hk Hx
         end.
  injection Hsave as <-.
  unfold sessions_in_range; simpl.
  apply Forall_app; split.
  - apply Forall_filter, Hd.
  - constructor; [|constructor]. unfold session_in_range; simpl. tauto.
Qed.

Lemma load_game_StatVector (save_name : string) (d : DB) (game_state : GameState) :
  sessions_in_range d -> load_game save_name d = Some game_state ->
  StatVector (gs_stats game_state).
Proof.
  unfold load_game. intros Hd Hload.
  destruct (find _ (game_sessions d)) as [row|] eqn:Hfind; [|discriminate].
  injection Hload as <-.
  apply find_some in Hfind as [Hin _].
  unfold sessions_in_range in Hd. rewrite Forall_forall in Hd.
  destruct (Hd row Hin) as (H1 & H2 & H3 & H4 & H5 & H6).
  split; [reflexivity|]. simpl.
  repeat (apply Forall_cons; [assumption|]). apply Forall_nil.
Qed.

Lemma step_inv (g g' : Game) : step g g' -> game_inv g -> game_inv g'.
Proof.
  intros Hstep [Hs Hd]. destruct Hstep; simpl.
  - split; [apply new_stats_StatVector | exact Hd].
  - split; assumption.
  - apply make_decision_inv. split; assumption.
  - unfold save_game_dialog.
    destruct (String.eqb save_name ""); [split; assumption|].
    destruct (save_game _ _ (db g)) as [d'|e] eqn:Hsave; simpl; [|split; assumption].
    split; [exact Hs|].
    eapply save_game_inv; [| exact Hd | exact Hsave]. exact Hs.
  - unfold load_selected_game.
    destruct (load_game save_name (db g)) as [game_state|] eqn:Hload; simpl;
      [|split; assumption].
    split; [|exact Hd].
    eapply load_game_StatVector; eassumption.
  - split; assumption.
Qed.

(** C2: from a state whose statistics are a StatVector and whose saved
    sessions are in range, every state reached by starting a game,
    deciding, drawing events, saving and loading has all six statistics
    inside [0,100], and applying any effects mapping to it again yields six
    values inside [0,100]. *)
Theorem stats_always_in_range (g0 g : Game) (effects : Py.dict Z) :
  StatVector (stats g0) ->
  sessions_in_range (db g0) ->
  reachable g0 g ->
  StatVector (stats g) /\
  StatVector (apply_effects_loop effects (stats g)).
Proof.
  intros Hs Hd Hreach.
  assert (Hinv : game_inv g).
  { assert (H0 : game_inv g0) by (split; assumption).
    clear Hs Hd. induction Hreach as [|g1 g2 _ IH Hstep]; [exact H0|].
    eapply step_inv; eassumption. }
  destruct Hinv as [Hs' _].
  split; [exact Hs' | apply apply_effects_loop_StatVector, Hs'].
Qed.

(** A concrete reachable state: a new game on a fresh database, after the
    first option of the first event was chosen. *)
Lemma stats_always_in_range_witness :
  let g0 := init (empty_db 0) in
  let g := snd (make_decision 0 new_game) in
  StatVector (stats g) /\
  StatVector (apply_effects_loop [("economy", -200); ("happiness", 300)] (stats g)).
Proof.
  intros g0 g.
  apply (stats_always_in_range g0 g).
  - apply new_stats_StatVector.
  - apply Forall_nil.
  - apply reachable_step with (g := new_game).
    + apply reachable_step with (g := g0).
      * apply reachable_here.
      * apply step_start_game.
    + apply step_make_decision.
Defined.

(** *** Turn and year counters *)

Lemma apply_effects_loop_keys (items : list (string * Z)) :
  forall s, Py.keys (apply_effects_loop items s) = Py.keys s.
Proof.
  induction items as [|[stat change] rest IH]; simpl; intros s; [reflexivity|].
  rewrite IH.
  destruct (Py.get s stat) eqn:Hget; [|reflexivity].
  apply keys_set. congruence.
Qed.

Lemma check_game_over_loop_total (s : Py.dict Z) :
  wf_stats s -> exists over, check_game_over_loop s = Py.Ok over.
Proof.
  intros Hkeys. explicit_stats s Hkeys. simpl.
  repeat match goal with
         | |- context [?v <=? 0] => destruct (v <=? 0); [eexists; reflexivity|]
         end.
  eexists; reflexivity.
Qed.

Lemma after_decision_turn (chosen_option : GameOption) (g : Game) :
  current_turn (after_decision chosen_option g) = current_turn g + 1.
Proof.
  unfold after_decision. cbn [current_turn set_current_turn set_stats].
  destruct (_ mod 4 =? 0); reflexivity.
Qed.

Lemma after_decision_year (chosen_option : GameOption) (g : Game) :
  current_year (after_decision chosen_option g) =
  current_year g + (if (current_turn g + 1) mod 4 =? 0 then 1 else 0).
Proof.
  unfold after_decision.
  cbn [current_turn current_year set_current_turn set_stats].
  destruct (_ mod 4 =? 0); cbn; lia.
Qed.

Lemma game_over_screen_game (cause : string) (g : Game) :
  fst (game_over_screen cause g) = Py.Ok tt /\
  stats (snd (game_over_screen cause g)) = stats g /\
  current_turn (snd (game_over_screen cause g)) = current_turn g /\
  current_year (snd (game_over_screen cause g)) = current_year g.
Proof.
  unfold game_over_screen.
  destruct (save_high_score _ (db g)); simpl; auto.
Qed.

(** A call that gets past the subscript and the game over check returns
    normally. *)
Lemma make_decision_succeeds (choice_index : Z) (g : Game) (event : Event)
    (chosen_option : GameOption) :
  current_event g = Some event ->
  Py.index (options event) choice_index = Py.Ok chosen_option ->
  wf_stats (stats g) ->
  fst (make_decision choice_index g) = Py.Ok tt /\
  stats (snd (make_decision choice_index g)) =
    apply_effects_loop (effects chosen_option) (stats g) /\
  current_turn (snd (make_decision choice_index g)) = current_turn g + 1 /\
  current_year (snd (make_decision choice_index g)) =
    current_year g + (if (current_turn g + 1) mod 4 =? 0 then 1 else 0).
Proof.
  intros Hev Hidx Hwf. rewrite make_decision_unfold, Hev, Hidx. cbv zeta.
  destruct (check_game_over_loop_total (stats (after_decision chosen_option g)))
    as [[over cause] Hover].
  { unfold wf_stats. rewrite after_decision_stats, apply_effects_loop_keys. exact Hwf. }
  rewrite Hover.
  destruct over.
  - destruct (game_over_screen_game cause (after_decision chosen_option g))
      as (-> & -> & -> & ->).
    rewrite after_decision_stats, after_decision_turn, after_decision_year. auto.
  - cbn [fst snd].
    rewrite after_decision_stats, after_decision_turn, after_decision_year. auto.
Qed.

Lemma make_decision_counters (choice_index : Z) (g : Game) :
  fst (make_decision choice_index g) = Py.Ok tt ->
  current_turn (snd (make_decision choice_index g)) = current_turn g + 1 /\
  current_year (snd (make_decision choice_index g)) =
    current_year g + (if (current_turn g + 1) mod 4 =? 0 then 1 else 0).
Proof.
  rewrite make_decision_unfold.
  destruct (current_event g) as [event|]; [|discriminate].
  destruct (Py.index (options event) choice_index) as [opt|e]; [|discriminate].
  cbv zeta.
  destruct (check_game_over_loop _) as [[[] cause]|e]; [| |discriminate]; intros _.
  - destruct (game_over_screen_game cause (after_decision opt g)) as (_ & _ & -> & ->).
    rewrite after_decision_turn, after_decision_year. auto.
  - cbn [snd]. rewrite after_decision_turn, after_decision_year. auto.
Qed.

Lemma quarter_step (n : Z) :
  0 <= n -> n / 4 + (if (n + 1) mod 4 =? 0 then 1 else 0) = (n + 1) / 4.
Proof.
  intros Hn. destruct ((n + 1) mod 4 =? 0) eqn:Hmod.
  - apply Z.eqb_eq in Hmod. Z.div_mod_to_equations. lia.
  - apply Z.eqb_neq in Hmod. Z.div_mod_to_equations. lia.
Qed.

Lemma decisions_counters (n : nat) (g0 g : Game) :
  current_turn g0 = 0 -> current_year g0 = 2024 ->
  decisions n g0 g ->
  current_turn g = Z.of_nat n /\ current_year g = 2024 + Z.of_nat n / 4.
Proof.
  intros Ht Hy Hrun.
  induction Hrun as [g|n g0 g i Hrun IH Hok|n g0 g rnd Hrun IH
                     |n g0 g name Hrun IH|n g0 g now Hrun IH].
  - rewrite Ht, Hy. simpl. split; reflexivity.
  - destruct (IH Ht Hy) as [IHt IHy].
    destruct (make_decision_counters i g Hok) as [-> ->].
    rewrite IHt, IHy, Nat2Z.inj_succ. split; [lia|].
    replace (Z.succ (Z.of_nat n)) with (Z.of_nat n + 1) by lia.
    rewrite <- (quarter_step (Z.of_nat n)) by lia. lia.
  - exact (IH Ht Hy).
  - destruct (IH Ht Hy) as [IHt IHy].
    unfold save_game_dialog.
    destruct (String.eqb name ""); [split; assumption|].
    destruct (save_game _ _ (db g)); simpl; split; assumption.
  - exact (IH Ht Hy).
Qed.

(** C3: a successful [make_decision] adds exactly 1 to [current_turn] and
    adds 1 to [current_year] exactly when the new turn number is divisible
    by 4; from turn 0 and year 2024, after [n] successful decisions the
    turn is [n] and the year is [2024 + n / 4], which is 2025 after 4 and
    after 7 decisions and 2026 after 8. *)
Theorem turn_and_year_advance :
  (forall (g : Game) (choice_index : Z),
      fst (make_decision choice_index g) = Py.Ok tt ->
      let g' := snd (make_decision choice_index g) in
      current_turn g' = current_turn g + 1 /\
      current_year g' =
        current_year g + (if current_turn g' mod 4 =? 0 then 1 else 0)) /\
  (forall (g0 g : Game) (n : nat),
      current_turn g0 = 0 -> current_year g0 = 2024 ->
      decisions n g0 g ->
      current_turn g = Z.of_nat n /\
      current_year g = 2024 + Z.of_nat n / 4 /\
      (n = 4%nat -> current_year g = 2025) /\
      (n = 7%nat -> current_year g = 2025) /\
      (n = 8%nat -> current_year g = 2026)).
Proof.
  split.
  - intros g i Hok g'. subst g'.
    destruct (make_decision_counters i g Hok) as [Ht Hy].
    rewrite Ht. split; [reflexivity | exact Hy].
  - intros g0 g n Ht Hy Hrun.
    destruct (decisions_counters n g0 g Ht Hy Hrun) as [Ht' Hy'].
    repeat split; try assumption; intros ->; rewrite Hy'; reflexivity.
Qed.

(** Four decisions in a new game: the first leaves the year at 2024, the
    fourth moves it to 2025. *)
Lemma turn_and_year_advance_witness :
  let g0 := new_game in
  let g1 := snd (make_decision 2 g0) in
  let g2 := snd (make_decision 2 g1) in
  let g3 := snd (make_decision 2 g2) in
  let g4 := snd (make_decision 2 g3) in
  (fst (make_decision 2 g0) = Py.Ok tt /\
   current_turn g1 = current_turn g0 + 1 /\
   current_year g1 = current_year g0 + 0) /\
  (decisions 4 g0 g4 /\ current_turn g4 = 4 /\ current_year g4 = 2025).
Proof.
  intros g0 g1 g2 g3 g4.
  assert (Hrun : decisions 4 g0 g4).
  { apply decisions_decide; [|vm_compute; reflexivity].
    apply decisions_decide; [|vm_compute; reflexivity].
    apply decisions_decide; [|vm_compute; reflexivity].
    apply decisions_decide; [|vm_compute; reflexivity].
    apply decisions_none. }
  split.
  - split; [vm_compute; reflexivity|].
    apply (proj1 turn_and_year_advance g0 2). vm_compute; reflexivity.
  - split; [exact Hrun|].
    destruct (proj2 turn_and_year_advance g0 g4 4%nat eq_refl eq_refl Hrun)
      as (Ht & _ & Hy & _).
    split; [exact Ht | exact (Hy eq_refl)].
Defined.

(** *** Game over *)

Lemma stat_test (v : Z) : in_range v -> (v <=? 0) = (v =? 0).
Proof.
  unfold in_range. intros Hv.
  destruct (Z.eqb_spec v 0), (Z.leb_spec v 0); lia.
Qed.

Lemma check_game_over_loop_zero (s : Py.dict Z) :
  StatVector s ->
  ((exists cause, check_game_over_loop s = Py.Ok (true, cause)) <-> In 0 (Py.values s)) /\
  (~ In 0 (Py.values s) -> check_game_over_loop s = Py.Ok (false, "")).
Proof.
  intros Hs. explicit_StatVector s Hs.
  cbn [check_game_over_loop Py.values map snd In].
  rewrite !stat_test by assumption.
  first_zero_cases
    ltac:(split;
          [ split; [ intros _; auto 10 | intros _; eexists; reflexivity ]
          | intros Hno; exfalso; apply Hno; auto 10 ]).
  split; [split|].
  - intros [cause Hcause]. discriminate Hcause.
  - intros Hin. exfalso. intuition congruence.
  - reflexivity.
Qed.

(** C9: on a StatVector, [check_game_over] reports game over exactly when
    one of the six values is 0; with all six values between 1 and 100 it
    reports that the game goes on, so a value of 100 never ends the game. *)
Theorem game_over_iff_some_stat_zero (s : Py.dict Z) :
  StatVector s ->
  ((exists cause, check_game_over_loop s = Py.Ok (true, cause)) <->
   In 0 (Py.values s)) /\
  (~ In 0 (Py.values s) -> check_game_over_loop s = Py.Ok (false, "")) /\
  (Forall (fun v => 1 <= v <= 100) (Py.values s) ->
   check_game_over_loop s = Py.Ok (false, "")).
Proof.
  intros Hs.
  destruct (check_game_over_loop_zero s Hs) as [Hiff Hnone].
  split; [exact Hiff|]. split; [exact Hnone|].
  intros Hpos. apply Hnone. intros Hin.
  rewrite Forall_forall in Hpos. specialize (Hpos 0 Hin). lia.
Qed.

Lemma game_over_iff_some_stat_zero_witness :
  let s := [ ("economy", 100); ("happiness", 1); ("stability", 0);
             ("relations", 50); ("military_power", 100); ("environment", 7) ] in
  StatVector s /\
  ((exists cause, check_game_over_loop s = Py.Ok (true, cause)) <->
   In 0 (Py.values s)).
Proof.
  intros s.
  assert (Hs : StatVector s).
  { split; [reflexivity|]. simpl. unfold in_range. repeat constructor; lia. }
  split; [exact Hs|].
  exact (proj1 (game_over_iff_some_stat_zero s Hs)).
Defined.

Lemma causes_injective (name other cause : string) :
  In name stat_names ->
  Py.get causes name = Some cause ->
  Py.get causes other = Some cause ->
  other = name.
Proof.
  intros Hin Hname. simpl in Hin.
  repeat destruct Hin as [<-|Hin]; try contradiction;
    vm_compute in Hname; injection Hname as <-;
    unfold causes; cbn [Py.get];
    repeat match goal with
           | |- context [String.eqb ?k other] =>
               destruct (String.eqb_spec k other) as [<-|_];
               [ intros Hother; first [reflexivity | discriminate Hother] | ]
           end;
    intros Hother; discriminate Hother.
Qed.

(** C4: on a terminal StatVector the cause reported by [check_game_over]
    is the message of the first stat at value 0 in the order economy,
    happiness, stability, relations, military_power, environment, and no
    other stat has that message; with economy and happiness both at 0 the
    cause is that of economy. *)
Theorem terminal_cause_is_first_zero (s : Py.dict Z) :
  StatVector s ->
  In 0 (Py.values s) ->
  exists name cause,
    first_stat_at_zero s = Some name /\
    Py.get causes name = Some cause /\
    check_game_over_loop s = Py.Ok (true, cause) /\
    (forall other, Py.get causes other = Some cause -> other = name) /\
    (Py.get s "economy" = Some 0 -> Py.get s "happiness" = Some 0 ->
     name = "economy").
Proof.
  intros Hs Hin.
  assert (Hgoal : exists name cause,
             In name stat_names /\
             first_stat_at_zero s = Some name /\
             Py.get causes name = Some cause /\
             check_game_over_loop s = Py.Ok (true, cause) /\
             (Py.get s "economy" = Some 0 -> name = "economy")).
  { explicit_StatVector s Hs.
    unfold first_stat_at_zero.
    cbn [check_game_over_loop Py.values map snd In stat_names find Py.get String.eqb
         Ascii.eqb Bool.eqb] in *.
    rewrite !stat_test by assumption.
    first_zero_cases
      ltac:(do 2 eexists;
            split; [|split; [reflexivity|split; [reflexivity|split; [reflexivity|]]]];
            [ simpl; auto 10 | intros Heco; first [reflexivity | congruence] ]).
    exfalso. intuition congruence. }
  destruct Hgoal as (name & cause & Hname & Hfirst & Hcause & Hover & Heco).
  exists name, cause. repeat split; try assumption.
  - intros other Hother. eapply causes_injective; eassumption.
  - intros H1 _. exact (Heco H1).
Qed.

Lemma terminal_cause_is_first_zero_witness :
  let s := [ ("economy", 0); ("happiness", 0); ("stability", 50);
             ("relations", 50); ("military_power", 50); ("environment", 50) ] in
  StatVector s /\ In 0 (Py.values s) /\
  exists name cause,
    first_stat_at_zero s = Some name /\
    Py.get causes name = Some cause /\
    check_game_over_loop s = Py.Ok (true, cause) /\
    (forall other, Py.get causes other = Some cause -> other = name) /\
    (Py.get s "economy" = Some 0 -> Py.get s "happiness" = Some 0 ->
     name = "economy").
Proof.
  intros s.
  assert (Hs : StatVector s).
  { split; [reflexivity|]. simpl. unfold in_range. repeat constructor; lia. }
  assert (Hin : In 0 (Py.values s)) by (simpl; auto).
  split; [exact Hs|]. split; [exact Hin|].
  exact (terminal_cause_is_first_zero s Hs Hin).
Defined.

(** *** Option indices *)

Lemma index_in_bounds {A : Type} (l : list A) (i : Z) :
  - Z.of_nat (List.length l) <= i < Z.of_nat (List.length l) ->
  exists a,
    Py.index l i = Py.Ok a /\
    nth_error l (Z.to_nat (if i <? 0 then i + Z.of_nat (List.length l) else i)) = Some a.
Proof.
  intros Hi. unfold Py.index.
  set (n := Z.of_nat (List.length l)) in *.
  set (j := if i <? 0 then i + n else i).
  assert (Hj : 0 <= j < n) by (subst j; destruct (Z.ltb_spec i 0); lia).
  destruct (Z.ltb_spec j 0); [lia|].
  destruct (Z.leb_spec n j); [lia|]. cbn [orb].
  destruct (nth_error l (Z.to_nat j)) as [a|] eqn:Hnth.
  - exists a. split; reflexivity.
  - apply nth_error_None in Hnth. lia.
Qed.

Lemma index_out_of_bounds {A : Type} (l : list A) (i : Z) :
  i < - Z.of_nat (List.length l) \/ Z.of_nat (List.length l) <= i ->
  Py.index l i = Py.Raise Py.IndexError.
Proof.
  intros Hi. unfold Py.index.
  destruct (Z.ltb_spec i 0).
  - destruct (Z.ltb_spec (i + Z.of_nat (List.length l)) 0); [reflexivity|lia].
  - destruct (Z.ltb_spec i 0); [lia|].
    destruct (Z.leb_spec (Z.of_nat (List.length l)) i); [reflexivity|lia].
Qed.

Lemma check_game_over_loop_raises (s : Py.dict Z) (e : Py.exn) :
  check_game_over_loop s = Py.Raise e -> exists key, e = Py.KeyError key.
Proof.
  induction s as [|[stat value] rest IH]; simpl; [discriminate|].
  destruct (value <=? 0); [|exact IH].
  unfold Py.getitem. destruct (Py.get causes stat); [discriminate|].
  intros H. injection H as <-. eexists; reflexivity.
Qed.

(** Once the subscript has produced an option, its effects are applied
    in full and the counters advance, whatever happens afterwards. *)
Lemma make_decision_indexed (choice_index : Z) (g : Game) (event : Event)
    (chosen_option : GameOption) :
  current_event g = Some event ->
  Py.index (options event) choice_index = Py.Ok chosen_option ->
  fst (make_decision choice_index g) <> Py.Raise Py.IndexError /\
  stats (snd (make_decision choice_index g)) =
    apply_effects_loop (effects chosen_option) (stats g) /\
  current_turn (snd (make_decision choice_index g)) = current_turn g + 1 /\
  current_year (snd (make_decision choice_index g)) =
    current_year g + (if (current_turn g + 1) mod 4 =? 0 then 1 else 0).
Proof.
  intros Hev Hidx. rewrite make_decision_unfold, Hev, Hidx. cbv zeta.
  destruct (check_game_over_loop _) as [[[] cause]|e] eqn:Hover.
  - destruct (game_over_screen_game cause (after_decision chosen_option g))
      as (-> & -> & -> & ->).
    rewrite after_decision_stats, after_decision_turn, after_decision_year.
    repeat split. discriminate.
  - cbn [fst snd].
    rewrite after_decision_stats, after_decision_turn, after_decision_year.
    repeat split. discriminate.
  - cbn [fst snd].
    rewrite after_decision_stats, after_decision_turn, after_decision_year.
    repeat split.
    apply check_game_over_loop_raises in Hover as [key ->]. discriminate.
Qed.

(** C5, as the code has it: with a current event of [n] options,
    [make_decision] raises [IndexError] exactly when the index is below
    [-n] or at least [n]; the game is then left as it was; for every other
    index the effects of the selected option are applied in full. *)
Theorem decide_rejects_index_outside_list (g : Game) (event : Event) (choice_index : Z) :
  current_event g = Some event ->
  let n := Z.of_nat (List.length (options event)) in
  (fst (make_decision choice_index g) = Py.Raise Py.IndexError <->
   (choice_index < - n \/ n <= choice_index)) /\
  (fst (make_decision choice_index g) = Py.Raise Py.IndexError ->
   snd (make_decision choice_index g) = g) /\
  (- n <= choice_index < n ->
   exists chosen_option,
     Py.index (options event) choice_index = Py.Ok chosen_option /\
     stats (snd (make_decision choice_index g)) =
       apply_effects_loop (effects chosen_option) (stats g)).
Proof.
  intros Hev n.
  assert (Hout : choice_index < - n \/ n <= choice_index ->
                 make_decision choice_index g = (Py.Raise Py.IndexError, g)).
  { intros Hi. rewrite make_decision_unfold, Hev.
    rewrite (index_out_of_bounds _ _ Hi). reflexivity. }
  assert (Hin : - n <= choice_index < n ->
                exists chosen_option,
                  Py.index (options event) choice_index = Py.Ok chosen_option /\
                  fst (make_decision choice_index g) <> Py.Raise Py.IndexError /\
                  stats (snd (make_decision choice_index g)) =
                    apply_effects_loop (effects chosen_option) (stats g)).
  { intros Hi. destruct (index_in_bounds _ _ Hi) as (opt & Hidx & _).
    exists opt. split; [exact Hidx|].
    destruct (make_decision_indexed _ _ _ _ Hev Hidx) as (Hne & Hst & _).
    split; assumption. }
  split; [split|split].
  - intros Hfail.
    destruct (Z_lt_le_dec choice_index (- n)) as [|Hlo]; [left; assumption|].
    destruct (Z_lt_le_dec choice_index n) as [Hhi|]; [|right; assumption].
    destruct (Hin (conj Hlo Hhi)) as (_ & _ & Hne & _). contradiction.
  - intros Hi. rewrite (Hout Hi). reflexivity.
  - intros Hfail.
    destruct (Z_lt_le_dec choice_index (- n)) as [|Hlo];
      [rewrite Hout; [reflexivity | left; assumption]|].
    destruct (Z_lt_le_dec choice_index n) as [Hhi|];
      [|rewrite Hout; [reflexivity | right; assumption]].
    destruct (Hin (conj Hlo Hhi)) as (_ & _ & Hne & _). contradiction.
  - intros Hi. destruct (Hin Hi) as (opt & Hidx & _ & Hst).
    exists opt. split; assumption.
Qed.

(** C10: with a current event of [n >= 1] options and an index between
    [-n] and [-1], [make_decision] behaves exactly as for the index
    [n + choice_index]: it raises no [IndexError], applies the effects of
    the option at that position and advances the turn and the year; with
    the six statistics in place it returns normally. *)
Theorem negative_index_counts_from_end (g : Game) (event : Event) (choice_index : Z) :
  current_event g = Some event ->
  let n := Z.of_nat (List.length (options event)) in
  1 <= n ->
  - n <= choice_index <= -1 ->
  make_decision choice_index g = make_decision (n + choice_index) g /\
  fst (make_decision choice_index g) <> Py.Raise Py.IndexError /\
  (wf_stats (stats g) -> fst (make_decision choice_index g) = Py.Ok tt) /\
  exists chosen_option,
    nth_error (options event) (Z.to_nat (n + choice_index)) = Some chosen_option /\
    stats (snd (make_decision choice_index g)) =
      apply_effects_loop (effects chosen_option) (stats g) /\
    current_turn (snd (make_decision choice_index g)) = current_turn g + 1 /\
    current_year (snd (make_decision choice_index g)) =
      current_year g + (if (current_turn g + 1) mod 4 =? 0 then 1 else 0).
Proof.
  intros Hev n Hn Hi.
  assert (Hsame : Py.index (options event) choice_index =
                  Py.index (options event) (n + choice_index)).
  { unfold Py.index. fold n.
    destruct (Z.ltb_spec choice_index 0); [|lia].
    destruct (Z.ltb_spec (n + choice_index) 0); [lia|].
    replace (choice_index + n) with (n + choice_index) by lia. reflexivity. }
  destruct (index_in_bounds (options event) choice_index) as (opt & Hidx & Hnth);
    [fold n; lia|].
  fold n in Hnth.
  destruct (Z.ltb_spec choice_index 0); [|lia].
  replace (choice_index + n) with (n + choice_index) in Hnth by lia.
  destruct (make_decision_indexed _ _ _ _ Hev Hidx) as (Hne & Hst & Ht & Hy).
  split; [|split; [exact Hne|split]].
  - rewrite !make_decision_unfold, Hev, Hsame. reflexivity.
  - intros Hwf. apply (make_decision_succeeds _ _ _ _ Hev Hidx Hwf).
  - exists opt. repeat split; assumption.
Qed.

(** The last option of the first seeded event, chosen with index -1: the
    index is outside [0, 4) and the call returns normally. *)
Lemma negative_index_is_accepted :
  exists event,
    current_event new_game = Some event /\
    List.length (options event) = 4%nat /\
    fst (make_decision (-1) new_game) = Py.Ok tt /\
    ~ rejects_exactly_outside_0_n new_game event (-1).
Proof.
  eexists. split; [reflexivity|]. split; [reflexivity|]. split; [reflexivity|].
  intros Hclaim. destruct (Hclaim eq_refl) as [[_ Hfail] _].
  assert (Hraise : fst (make_decision (-1) new_game) = Py.Raise Py.IndexError).
  { apply Hfail. simpl. lia. }
  vm_compute in Hraise. discriminate Hraise.
Qed.

Lemma decide_rejects_index_outside_list_witness :
  exists event,
    current_event new_game = Some event /\
    (fst (make_decision 4 new_game) = Py.Raise Py.IndexError <->
     (4 < - Z.of_nat (List.length (options event)) \/
      Z.of_nat (List.length (options event)) <= 4)) /\
    (fst (make_decision 4 new_game) = Py.Raise Py.IndexError ->
     snd (make_decision 4 new_game) = new_game).
Proof.
  eexists. split; [reflexivity|].
  pose proof (decide_rejects_index_outside_list new_game _ 4 eq_refl) as H.
  cbv zeta in H. destruct H as (Hiff & Hsame & _).
  split; [exact Hiff | exact Hsame].
Defined.

Lemma negative_index_counts_from_end_witness :
  exists event,
    current_event new_game = Some event /\
    make_decision (-1) new_game = make_decision 3 new_game /\
    fst (make_decision (-1) new_game) = Py.Ok tt /\
    stats (snd (make_decision (-1) new_game)) =
      [ ("economy", 47); ("happiness", 58); ("stability", 50);
        ("relations", 53); ("military_power", 50); ("environment", 50) ].
Proof.
  eexists. split; [reflexivity|].
  assert (Hn : 1 <= 4) by lia.
  assert (Hi : - 4 <= -1 <= -1) by lia.
  pose proof (negative_index_counts_from_end new_game _ (-1) eq_refl Hn Hi) as H.
  destruct H as (Hsame & _ & Hok & opt & Hnth & Hstats & _).
  split; [exact Hsame|]. split; [exact (Hok eq_refl)|].
  rewrite Hstats.
  vm_compute in Hnth. injection Hnth as <-. reflexivity.
Defined.

(** *** Seeding the event catalog *)

Lemma insert_event_events (d : DB) (event : seed_event) :
  exists row, game_events (insert_event d event) = game_events d ++ [row].
Proof. eexists. reflexivity. Qed.

Lemma fold_insert_event_length (events : list seed_event) :
  forall d,
    List.length (game_events (fold_left insert_event events d)) =
    (List.length (game_events d) + List.length events)%nat.
Proof.
  induction events as [|event rest IH]; intros d; simpl.
  - lia.
  - rewrite IH. destruct (insert_event_events d event) as [row ->].
    rewrite length_app. simpl. lia.
Qed.

Lemma populate_default_events_nonempty (d : DB) :
  game_events d <> [] -> populate_default_events d = d.
Proof.
  intros Hne. unfold populate_default_events, count_events.
  destruct (game_events d) as [|row rows]; [congruence|].
  reflexivity.
Qed.

Lemma populate_default_events_empty (d : DB) :
  game_events d = [] ->
  populate_default_events d = fold_left insert_event default_events d /\
  List.length (game_events (populate_default_events d)) = 7%nat.
Proof.
  intros Hempty.
  assert (Hpop : populate_default_events d = fold_left insert_event default_events d).
  { unfold populate_default_events, count_events. rewrite Hempty. reflexivity. }
  split; [exact Hpop|].
  rewrite Hpop, fold_insert_event_length, Hempty. reflexivity.
Qed.

(** C7: [populate_default_events] inserts the seven default events only
    into an empty catalog and leaves a catalog that holds events as it
    is; running it a second time changes nothing, so seeding an empty
    catalog twice leaves 7 events, not 14. *)
Theorem populate_default_events_idempotent :
  List.length default_events = 7%nat /\
  (forall d, populate_default_events (populate_default_events d) =
             populate_default_events d) /\
  (forall d, game_events d = [] ->
             List.length (game_events (populate_default_events d)) = 7%nat /\
             List.length (game_events
               (populate_default_events (populate_default_events d))) = 7%nat) /\
  (forall d, game_events d <> [] -> populate_default_events d = d).
Proof.
  assert (Hidem : forall d, populate_default_events (populate_default_events d) =
                            populate_default_events d).
  { intros d. destruct (game_events d) as [|row rows] eqn:Hev.
    - destruct (populate_default_events_empty d Hev) as [_ Hlen].
      apply populate_default_events_nonempty.
      intros Hnil. rewrite Hnil in Hlen. discriminate Hlen.
    - assert (Hd : populate_default_events d = d).
      { apply populate_default_events_nonempty. rewrite Hev. discriminate. }
      rewrite !Hd. reflexivity. }
  split; [reflexivity|]. split; [exact Hidem|]. split.
  - intros d Hev. rewrite Hidem.
    destruct (populate_default_events_empty d Hev) as [_ Hlen]. split; exact Hlen.
  - exact populate_default_events_nonempty.
Qed.

Lemma populate_default_events_idempotent_witness :
  let d := empty_db 0 in
  game_events d = [] /\
  List.length (game_events (populate_default_events d)) = 7%nat /\
  List.length (game_events (populate_default_events (populate_default_events d))) = 7%nat.
Proof.
  intros d. split; [reflexivity|].
  destruct populate_default_events_idempotent as (_ & _ & Hseed & _).
  exact (Hseed d eq_refl).
Defined.

(** *** Saving and loading *)

Lemma wf_stats_getitem (s : Py.dict Z) :
  wf_stats s ->
  exists e h st r m env,
    s = [ ("economy", e); ("happiness", h); ("stability", st);
          ("relations", r); ("military_power", m); ("environment", env) ].
Proof.
  intros Hkeys. explicit_stats s Hkeys. repeat eexists.
Qed.

Lemma find_app_last {A : Type} (f : A -> bool) (l : list A) (x : A) :
  find f l = None -> f x = true -> find f (l ++ [x]) = Some x.
Proof.
  induction l as [|y l IH]; simpl; intros Hnone Hx.
  - rewrite Hx. reflexivity.
  - destruct (f y); [discriminate|]. apply IH; assumption.
Qed.

Lemma find_filter_negb {A : Type} (f : A -> bool) (l : list A) :
  find f (filter (fun x => negb (f x)) l) = None.
Proof.
  induction l as [|y l IH]; simpl; [reflexivity|].
  destruct (f y) eqn:Hy; simpl; [exact IH|].
  rewrite Hy. exact IH.
Qed.

Lemma filter_filter_negb {A : Type} (f : A -> bool) (l : list A) :
  filter f (filter (fun x => negb (f x)) l) = [].
Proof.
  induction l as [|y l IH]; simpl; [reflexivity|].
  destruct (f y) eqn:Hy; simpl; [exact IH|].
  rewrite Hy. exact IH.
Qed.

Lemma filter_other_name (name other : string) (l : list GameSessions.row) :
  other <> name ->
  filter (fun r => String.eqb (GameSessions.save_name r) other)
    (filter (fun r => negb (String.eqb (GameSessions.save_name r) name)) l) =
  filter (fun r => String.eqb (GameSessions.save_name r) other) l.
Proof.
  intros Hne. induction l as [|y l IH]; simpl; [reflexivity|].
  destruct (String.eqb_spec (GameSessions.save_name y) name) as [Hy|Hy]; simpl.
  - destruct (String.eqb_spec (GameSessions.save_name y) other); [congruence|exact IH].
  - destruct (String.eqb (GameSessions.save_name y) other); [f_equal|]; exact IH.
Qed.

(** One [save_game] of a well-formed state: it succeeds, the name then
    holds exactly one session, that session loads back as the state, and
    the sessions under other names are untouched. *)
Lemma save_game_then_load (save_name : string) (game_state : GameState) (d : DB) :
  wf_stats (gs_stats game_state) ->
  exists d',
    save_game save_name game_state d = Py.Ok d' /\
    load_game save_name d' = Some game_state /\
    List.length (sessions_named save_name d') = 1%nat /\
    (forall other, other <> save_name ->
                   sessions_named other d' = sessions_named other d).
Proof.
  intros Hwf.
  destruct game_state as [country year turn s]. simpl in Hwf.
  destruct (wf_stats_getitem s Hwf) as (e & h & st & r & m & env & ->).
  eexists. split; [reflexivity|]. split; [|split].
  - unfold load_game. cbn [game_sessions with_game_sessions].
    rewrite (find_app_last _ _ _ (find_filter_negb _ _)).
    + reflexivity.
    + cbn. apply String.eqb_refl.
  - unfold sessions_named. cbn [game_sessions with_game_sessions].
    rewrite filter_app, filter_filter_negb. cbn.
    rewrite String.eqb_refl. reflexivity.
  - intros other Hne. unfold sessions_named. cbn [game_sessions with_game_sessions].
    rewrite filter_app, filter_other_name by exact Hne. cbn.
    destruct (String.eqb_spec save_name other); [congruence|].
    apply app_nil_r.
Qed.

Lemma int64_in_range (v : Z) : in_range v -> int64 v.
Proof. unfold in_range, int64. intros Hv. split; [|apply Z.lt_le_trans with 101]; lia. Qed.

(** A state of the game whose counters fit the INTEGER columns can be
    stored: its statistics are between 0 and 100. *)
Lemma StatVector_storable (game_state : GameState) :
  StatVector (gs_stats game_state) ->
  int64 (gs_current_year game_state) ->
  int64 (gs_current_turn game_state) ->
  storable game_state.
Proof.
  intros Hs Hyear Hturn. split; [exact Hyear|]. split; [exact Hturn|].
  intros name v Hin Hget.
  destruct (StatVector_getitem _ name Hs Hin) as (v' & Hv' & Hrange).
  unfold Py.getitem in Hv'. rewrite Hget in Hv'. injection Hv' as <-.
  apply int64_in_range, Hrange.
Qed.

(** C8: for states [A] and [B] that hold the six statistics and whose
    integers fit the 64-bit INTEGER columns, saving [A] and then [B] under
    one name never fails, loading that name then returns [B], exactly one
    session is stored under the name, and the sessions under other names
    stay as they were, so a table with at most one session per name stays
    one. *)
Theorem save_game_overwrites (d : DB) (save_name : string) (A B : GameState) :
  wf_stats (gs_stats A) ->
  wf_stats (gs_stats B) ->
  storable A ->
  storable B ->
  exists d1 d2,
    save_game save_name A d = Py.Ok d1 /\
    save_game save_name B d1 = Py.Ok d2 /\
    load_game save_name d2 = Some B /\
    List.length (sessions_named save_name d2) = 1%nat /\
    (forall other, other <> save_name ->
                   sessions_named other d2 = sessions_named other d) /\
    ((forall name, List.length (sessions_named name d) <= 1)%nat ->
     (forall name, List.length (sessions_named name d2) <= 1)%nat).
Proof.
  intros HA HB _ _.
  destruct (save_game_then_load save_name A d HA) as (d1 & Hs1 & _ & _ & Ho1).
  destruct (save_game_then_load save_name B d1 HB) as (d2 & Hs2 & Hl2 & Hc2 & Ho2).
  assert (Hother : forall other, other <> save_name ->
                     sessions_named other d2 = sessions_named other d).
  { intros other Hne. rewrite (Ho2 other Hne). apply Ho1, Hne. }
  exists d1, d2. repeat split; try assumption.
  intros Hunique name.
  destruct (String.eqb_spec name save_name) as [->|Hne].
  - rewrite Hc2. apply le_n.
  - rewrite (Hother name Hne). apply Hunique.
Qed.

Lemma save_game_overwrites_witness :
  let A := {| gs_country_name := "Utopia"; gs_current_year := 2024;
              gs_current_turn := 1; gs_stats := new_stats |} in
  let B := {| gs_country_name := "Utopia"; gs_current_year := 2026;
              gs_current_turn := 9;
              gs_stats := apply_effects_loop [("economy", -20)] new_stats |} in
  storable A /\ storable B /\
  exists d1 d2,
    save_game "alpha" A (empty_db 0) = Py.Ok d1 /\
    save_game "alpha" B d1 = Py.Ok d2 /\
    load_game "alpha" d2 = Some B /\
    List.length (sessions_named "alpha" d2) = 1%nat.
Proof.
  intros A B.
  assert (Hsmall : forall v, 0 <= v <= 10000 -> int64 v).
  { unfold int64. intros v Hv. split; [|apply Z.lt_le_trans with 10001]; lia. }
  assert (HA : storable A).
  { apply StatVector_storable; [apply new_stats_StatVector | |]; apply Hsmall; cbn; lia. }
  assert (HB : storable B).
  { apply StatVector_storable;
      [apply apply_effects_loop_StatVector, new_stats_StatVector | |];
      apply Hsmall; cbn; lia. }
  split; [exact HA|]. split; [exact HB|].
  destruct (save_game_overwrites (empty_db 0) "alpha" A B eq_refl eq_refl HA HB)
    as (d1 & d2 & H1 & H2 & H3 & H4 & _ & _).
  exists d1, d2. repeat split; assumption.
Defined.

(** *** Recording the score *)

(** C1, as the code has it: the row that [game_over_screen] appends to
    [high_scores] holds the years and turns survived, the cause and the
    final values of economy, happiness, stability and relations; the table
    has no column for military_power and environment, and the row is the
    same whatever these two are. *)
Theorem score_row_holds_four_stats (g : Game) (cause : string) :
  wf_stats (stats g) ->
  exists row,
    high_scores (db (snd (game_over_screen cause g))) = high_scores (db g) ++ [row] /\
    HighScores.years_survived row = current_year g - 2024 /\
    HighScores.turns_survived row = current_turn g /\
    HighScores.cause_of_downfall row = cause /\
    Py.get (stats g) "economy" = Some (HighScores.final_economy row) /\
    Py.get (stats g) "happiness" = Some (HighScores.final_happiness row) /\
    Py.get (stats g) "stability" = Some (HighScores.final_stability row) /\
    Py.get (stats g) "relations" = Some (HighScores.final_relations row) /\
    (forall m env,
        let s := Py.set (Py.set (stats g) "military_power" m) "environment" env in
        high_scores (db (snd (game_over_screen cause (set_stats g s)))) =
        high_scores (db g) ++ [row]).
Proof.
  intros Hwf. destruct g as [d s year turn country player event].
  cbn [stats] in *.
  destruct (wf_stats_getitem s Hwf) as (e & h & st & r & m & env & ->).
  eexists. repeat split.
Qed.

Lemma score_row_holds_four_stats_witness :
  let g := snd (make_decision 1 (set_stats new_game
             [ ("economy", 50); ("happiness", 10); ("stability", 50);
               ("relations", 50); ("military_power", 50); ("environment", 50) ])) in
  exists row,
    high_scores (db (snd (game_over_screen "Revolution" g))) = high_scores (db g) ++ [row] /\
    HighScores.final_economy row = 55 /\
    HighScores.final_happiness row = 0.
Proof.
  intros g.
  destruct (score_row_holds_four_stats g "Revolution" eq_refl)
    as (row & Hrows & _ & _ & _ & Heco & Hhap & _).
  exists row. split; [exact Hrows|].
  assert (He : Py.get (stats g) "economy" = Some 55) by (vm_compute; reflexivity).
  assert (Hh : Py.get (stats g) "happiness" = Some 0) by (vm_compute; reflexivity).
  rewrite He in Heco. rewrite Hh in Hhap.
  injection Heco as Heco. injection Hhap as Hhap.
  split; symmetry; assumption.
Defined.

(** Two finished runs that differ only in military_power and environment
    leave the same score row, so the row does not hold these two values. *)
Lemma score_row_misses_two_stats :
  let sd1 := first_run in
  let sd2 := {| sd_player_name := sd_player_name first_run;
                sd_country_name := sd_country_name first_run;
                sd_years_survived := sd_years_survived first_run;
                sd_turns_survived := sd_turns_survived first_run;
                sd_final_stats := sd_final_stats second_run;
                sd_cause_of_downfall := sd_cause_of_downfall first_run |} in
  save_high_score sd1 (empty_db 0) = save_high_score sd2 (empty_db 0) /\
  Py.get (sd_final_stats sd1) "military_power" = Some 50 /\
  Py.get (sd_final_stats sd2) "military_power" = Some 10 /\
  ~ score_row_holds_six_stats (empty_db 0) sd1 sd2.
Proof.
  intros sd1 sd2.
  split; [reflexivity|]. split; [reflexivity|]. split; [reflexivity|].
  intros Hclaim.
  assert (Hsame : sd_final_stats sd1 = sd_final_stats sd2).
  { apply Hclaim.
    - split; [reflexivity|]. simpl. unfold in_range. repeat constructor; lia.
    - split; [reflexivity|]. simpl. unfold in_range. repeat constructor; lia.
    - reflexivity. }
  discriminate Hsame.
Qed.

(** *** The leaderboard *)

Lemma score_beforeb_true (a b : HighScores.row) :
  score_beforeb a b = true <-> score_before a b.
Proof.
  unfold score_beforeb, score_before.
  rewrite orb_true_iff, andb_true_iff, Z.ltb_lt, Z.eqb_eq, Z.leb_le. lia.
Qed.

Lemma score_beforeb_false (a b : HighScores.row) :
  score_beforeb a b = false -> score_before b a.
Proof.
  unfold score_beforeb, score_before.
  rewrite orb_false_iff, andb_false_iff, Z.ltb_ge, Z.eqb_neq, Z.leb_gt. lia.
Qed.

Lemma score_before_trans (a b c : HighScores.row) :
  score_before a b -> score_before b c -> score_before a c.
Proof. unfold score_before. lia. Qed.

Lemma rank_insert_perm (r : HighScores.row) (l : list HighScores.row) :
  Permutation (r :: l) (rank_insert r l).
Proof.
  induction l as [|x l IH]; simpl; [apply Permutation_refl|].
  destruct (score_beforeb r x); [apply Permutation_refl|].
  eapply Permutation_trans; [apply perm_swap|].
  apply perm_skip, IH.
Qed.

Lemma rank_insert_sorted (r : HighScores.row) (l : list HighScores.row) :
  StronglySorted score_before l -> StronglySorted score_before (rank_insert r l).
Proof.
  induction 1 as [|x l Hsorted IH Hx]; simpl.
  - constructor; constructor.
  - destruct (score_beforeb r x) eqn:Hrx.
    + apply score_beforeb_true in Hrx.
      constructor; [constructor; assumption|].
      constructor; [exact Hrx|].
      eapply Forall_impl; [|exact Hx].
      intros y Hy. eapply score_before_trans; eassumption.
    + apply score_beforeb_false in Hrx.
      constructor; [exact IH|].
      rewrite Forall_forall in *. intros y Hy.
      apply (Permutation_in _ (Permutation_sym (rank_insert_perm r l))) in Hy.
      destruct Hy as [<-|Hy]; [exact Hrx | apply Hx, Hy].
Qed.

Lemma rank_by_insertion_perm (rows : list HighScores.row) :
  Permutation rows (rank_by_insertion rows).
Proof.
  induction rows as [|r rows IH]; simpl; [constructor|].
  eapply Permutation_trans; [apply perm_skip, IH | apply rank_insert_perm].
Qed.

Lemma rank_by_insertion_sorted (rows : list HighScores.row) :
  StronglySorted score_before (rank_by_insertion rows).
Proof.
  induction rows as [|r rows IH]; simpl; [constructor|].
  apply rank_insert_sorted, IH.
Qed.

(** The ranking of the specification is one of the possible answers of
    the query. *)
Lemma topN_is_an_answer (d : DB) (n : Z) : get_leaderboard d n (topN d n).
Proof.
  exists (sql_limit n (rank_by_insertion (high_scores d))). split; [|reflexivity].
  exists (rank_by_insertion (high_scores d)).
  split; [apply rank_by_insertion_perm|].
  split; [apply rank_by_insertion_sorted | reflexivity].
Qed.

Lemma score_before_refl (a : HighScores.row) : score_before a a.
Proof. unfold score_before. lia. Qed.

Lemma sorts_before_iff (a b : HighScores.row) :
  sorts_before a b = true <->
  HighScores.years_survived b < HighScores.years_survived a \/
  (HighScores.years_survived a = HighScores.years_survived b /\
   HighScores.turns_survived b < HighScores.turns_survived a).
Proof.
  unfold sorts_before.
  rewrite orb_true_iff, andb_true_iff, !Z.ltb_lt, Z.eqb_eq. reflexivity.
Qed.

Lemma sorts_before_negb (a b : HighScores.row) :
  sorts_before b a = negb (score_beforeb a b).
Proof.
  destruct (sorts_before b a) eqn:Hs, (score_beforeb a b) eqn:Hb; try reflexivity; exfalso.
  - apply sorts_before_iff in Hs. apply score_beforeb_true in Hb.
    unfold score_before in Hb. lia.
  - assert (Hb' : ~ score_before a b).
    { intros H. apply score_beforeb_true in H. congruence. }
    unfold score_before in Hb'.
    assert (Hn : ~ (HighScores.years_survived a < HighScores.years_survived b \/
                    (HighScores.years_survived b = HighScores.years_survived a /\
                     HighScores.turns_survived a < HighScores.turns_survived b))).
    { intros H. apply sorts_before_iff in H. congruence. }
    lia.
Qed.

Lemma tied_iff (a b : HighScores.row) :
  tied a b = true <->
  HighScores.years_survived a = HighScores.years_survived b /\
  HighScores.turns_survived a = HighScores.turns_survived b.
Proof. unfold tied. rewrite andb_true_iff, !Z.eqb_eq. reflexivity. Qed.

Lemma index_insert_perm (r : HighScores.row) (index : list HighScores.row) :
  Permutation (r :: index) (index_insert r index).
Proof.
  induction index as [|x rest IH]; simpl; [apply Permutation_refl|].
  destruct (sorts_before r x); [apply Permutation_refl|].
  eapply Permutation_trans; [apply perm_swap | apply perm_skip, IH].
Qed.

Lemma index_insert_sorted (r : HighScores.row) (index : list HighScores.row) :
  StronglySorted score_before index ->
  StronglySorted score_before (index_insert r index).
Proof.
  induction 1 as [|x rest Hsorted IH Hx]; simpl.
  - constructor; constructor.
  - destruct (sorts_before r x) eqn:Hrx.
    + assert (Hbefore : score_before r x).
      { apply sorts_before_iff in Hrx. unfold score_before. lia. }
      constructor; [constructor; assumption|].
      constructor; [exact Hbefore|].
      eapply Forall_impl; [|exact Hx].
      intros y Hy. eapply score_before_trans; eassumption.
    + assert (Hafter : score_before x r).
      { rewrite sorts_before_negb in Hrx. apply negb_false_iff in Hrx.
        apply score_beforeb_true, Hrx. }
      constructor; [exact IH|].
      rewrite Forall_forall in *. intros y Hy.
      apply (Permutation_in _ (Permutation_sym (index_insert_perm r rest))) in Hy.
      destruct Hy as [<-|Hy]; [exact Hafter | apply Hx, Hy].
Qed.

(** Inserting a row leaves the rows that tie with any given row in their
    order and puts the new row behind them. *)
Lemma index_insert_tied (k r : HighScores.row) (index : list HighScores.row) :
  StronglySorted score_before index ->
  filter (tied k) (index_insert r index) = filter (tied k) index ++ filter (tied k) [r].
Proof.
  induction 1 as [|x rest Hsorted IH Hx]; [reflexivity|].
  cbn [index_insert].
  destruct (sorts_before r x) eqn:Hrx.
  - destruct (tied k r) eqn:Hkr; cbn [filter]; rewrite Hkr;
      [|rewrite app_nil_r; reflexivity].
    assert (Hnone : filter (tied k) (x :: rest) = []).
    { apply sorts_before_iff in Hrx. apply tied_iff in Hkr.
      assert (Hall : forall y, In y (x :: rest) -> tied k y = false).
      { intros y Hy. destruct (tied k y) eqn:Hky; [|reflexivity].
        apply tied_iff in Hky.
        assert (Hxy : score_before x y).
        { destruct Hy as [<-|Hy]; [apply score_before_refl|].
          rewrite Forall_forall in Hx. apply Hx, Hy. }
        unfold score_before in Hxy. lia. }
      clear - Hall. induction (x :: rest) as [|y l IHl]; [reflexivity|].
      cbn [filter]. rewrite (Hall y) by (left; reflexivity).
      apply IHl. intros z Hz. apply Hall. right. exact Hz. }
    cbn [filter] in Hnone. rewrite Hnone. reflexivity.
  - cbn [filter]. rewrite IH. destruct (tied k x); reflexivity.
Qed.

Lemma fold_index_insert (rows : list HighScores.row) :
  forall index,
    StronglySorted score_before index ->
    let ranked := fold_left (fun index r => index_insert r index) rows index in
    Permutation (index ++ rows) ranked /\
    StronglySorted score_before ranked /\
    forall k, filter (tied k) ranked = filter (tied k) index ++ filter (tied k) rows.
Proof.
  induction rows as [|r rows IH]; intros index Hindex; cbv zeta; cbn [fold_left].
  - rewrite app_nil_r. split; [apply Permutation_refl|]. split; [exact Hindex|].
    intros k. rewrite app_nil_r. reflexivity.
  - destruct (IH (index_insert r index) (index_insert_sorted r index Hindex))
      as (Hperm & Hsorted & Htied).
    cbv zeta in Hperm, Hsorted, Htied.
    split; [|split; [exact Hsorted|]].
    + eapply Permutation_trans; [|exact Hperm].
      eapply Permutation_trans; [apply Permutation_sym, Permutation_middle|].
      exact (Permutation_app_tail rows (index_insert_perm r index)).
    + intros k. rewrite Htied, (index_insert_tied k r index Hindex), <- app_assoc.
      cbn [filter]. destruct (tied k r); reflexivity.
Qed.

Lemma sorted_index_ranked (rows : list HighScores.row) :
  Permutation rows (sorted_index rows) /\
  StronglySorted score_before (sorted_index rows) /\
  forall k, filter (tied k) (sorted_index rows) = filter (tied k) rows.
Proof.
  destruct (fold_index_insert rows [] (SSorted_nil _)) as (Hperm & Hsorted & Htied).
  split; [exact Hperm|]. split; [exact Hsorted|]. exact Htied.
Qed.




Lemma get_leaderboard_rows_is_an_answer (d : DB) (n : Z) :
  get_leaderboard d n (get_leaderboard_rows d n).
Proof.
  destruct (sorted_index_ranked (high_scores d)) as (Hperm & Hsorted & _).
  exists (sql_limit n (sorted_index (high_scores d))). split; [|reflexivity].
  exists (sorted_index (high_scores d)). repeat split; assumption.
Qed.




(** ** Further properties of the code *)

(** *** Dictionaries *)

Lemma get_set_same {V : Type} (d : Py.dict V) (k : string) (v : V) :
  Py.get (Py.set d k v) k = Some v.
Proof.
  induction d as [|[k' v'] d IH]; simpl.
  - rewrite String.eqb_refl. reflexivity.
  - destruct (String.eqb k' k) eqn:Hk; simpl; rewrite Hk; [reflexivity | exact IH].
Qed.

Lemma get_set_other {V : Type} (d : Py.dict V) (k k' : string) (v : V) :
  k <> k' -> Py.get (Py.set d k v) k' = Py.get d k'.
Proof.
  intros Hne. induction d as [|[k0 v0] d IH]; simpl.
  - destruct (String.eqb_spec k k'); [contradiction | reflexivity].
  - destruct (String.eqb_spec k0 k) as [->|Hk0]; simpl.
    + destruct (String.eqb_spec k k'); [contradiction | reflexivity].
    + destruct (String.eqb k0 k'); [reflexivity | exact IH].
Qed.

Lemma get_not_in {V : Type} (d : Py.dict V) (k : string) :
  ~ In k (Py.keys d) -> Py.get d k = None.
Proof.
  induction d as [|[k' v'] d IH]; simpl; intros Hnot; [reflexivity|].
  destruct (String.eqb_spec k' k) as [->|_]; [tauto|].
  apply IH. tauto.
Qed.

Lemma get_In {V : Type} (d : Py.dict V) (k : string) (v : V) :
  NoDup (Py.keys d) -> (Py.get d k = Some v <-> In (k, v) d).
Proof.
  induction d as [|[k' v'] d IH]; simpl; intros Hnd.
  - split; [discriminate | tauto].
  - inversion Hnd as [|? ? Hnot Hnd']; subst.
    destruct (String.eqb_spec k' k) as [->|Hne].
    + split.
      * intros H. injection H as ->. left; reflexivity.
      * intros [H|H]; [injection H as ->; reflexivity|].
        exfalso. apply Hnot. unfold Py.keys.
        change k with (fst (k, v)). apply in_map, H.
    + rewrite (IH Hnd'). split; [tauto|].
      intros [H|H]; [injection H as -> _; contradiction | exact H].
Qed.

Lemma dict_ext {V : Type} (d1 d2 : Py.dict V) :
  Py.keys d1 = Py.keys d2 -> NoDup (Py.keys d1) ->
  (forall k, Py.get d1 k = Py.get d2 k) -> d1 = d2.
Proof.
  revert d2. induction d1 as [|[k1 v1] d1 IH]; intros [|[k2 v2] d2]; simpl;
    intros Hkeys Hnd Hget; try discriminate; [reflexivity|].
  injection Hkeys as <- Hkeys.
  inversion Hnd as [|? ? Hnot Hnd']; subst.
  pose proof (Hget k1) as H1. rewrite String.eqb_refl in H1. injection H1 as <-.
  f_equal. apply IH; [exact Hkeys | exact Hnd' |].
  intros k. specialize (Hget k). revert Hget.
  destruct (String.eqb_spec k1 k) as [Heq|_]; [intros _ | tauto].
  subst k.
  rewrite !get_not_in; [reflexivity | rewrite <- Hkeys; exact Hnot | exact Hnot].
Qed.

(** *** Applying effects *)

Lemma apply_effects_loop_get (items : list (string * Z)) (k : string) :
  NoDup (Py.keys items) ->
  forall s,
    Py.get (apply_effects_loop items s) k =
    match Py.get s k, Py.get items k with
    | Some value, Some change => Some (Z.max 0 (Z.min 100 (value + change)))
    | current, _ => current
    end.
Proof.
  induction items as [|[stat change] rest IH]; simpl; intros Hnd s.
  - destruct (Py.get s k); reflexivity.
  - inversion Hnd as [|? ? Hnot Hnd']; subst.
    rewrite (IH Hnd').
    destruct (String.eqb_spec stat k) as [<-|Hne].
    + rewrite (get_not_in rest stat Hnot).
      destruct (Py.get s stat) as [value|] eqn:Hs.
      * rewrite get_set_same. reflexivity.
      * rewrite Hs. reflexivity.
    + destruct (Py.get s stat) as [value|] eqn:Hs; [|reflexivity].
      rewrite (get_set_other _ _ _ _ Hne). reflexivity.
Qed.

(** X1: effects whose names are not statistics of the game change
    nothing; in particular an empty effects mapping changes nothing. *)
Theorem apply_effects_ignores_unknown_names (effects s : Py.dict Z) :
  (forall name, In name (Py.keys effects) -> Py.get s name = None) ->
  apply_effects_loop effects s = s.
Proof.
  intros Hunknown.
  induction effects as [|[stat change] rest IH]; simpl; [reflexivity|].
  rewrite (Hunknown stat) by (simpl; auto).
  apply IH. intros name Hin. apply Hunknown. simpl. auto.
Qed.

Lemma apply_effects_ignores_unknown_names_witness :
  apply_effects_loop [("gdp", 30); ("morale", -80)] new_stats = new_stats.
Proof.
  apply (apply_effects_ignores_unknown_names [("gdp", 30); ("morale", -80)] new_stats).
  simpl. intros name [<-|[<-|[]]]; reflexivity.
Defined.

(** X2: [apply_effects] keeps the keys of the statistics and their
    order; a statistic named in the effects ends at
    [max 0 (min 100 (value + change))], every other one keeps its value. *)
Theorem apply_effects_pointwise (effects s : Py.dict Z) (name : string) :
  NoDup (Py.keys effects) ->
  Py.keys (apply_effects_loop effects s) = Py.keys s /\
  Py.get (apply_effects_loop effects s) name =
    match Py.get s name, Py.get effects name with
    | Some value, Some change => Some (Z.max 0 (Z.min 100 (value + change)))
    | current, _ => current
    end /\
  (Py.get effects name = None ->
   Py.get (apply_effects_loop effects s) name = Py.get s name).
Proof.
  intros Hnd.
  pose proof (apply_effects_loop_get effects name Hnd s) as Hget.
  split; [apply apply_effects_loop_keys|]. split; [exact Hget|].
  intros Hnone. rewrite Hget, Hnone. destruct (Py.get s name); reflexivity.
Qed.

Lemma apply_effects_pointwise_witness :
  let effects := [("economy", -60); ("happiness", 70)] in
  Py.get (apply_effects_loop effects new_stats) "economy" = Some 0 /\
  Py.get (apply_effects_loop effects new_stats) "happiness" = Some 100 /\
  Py.get (apply_effects_loop effects new_stats) "stability" = Some 50.
Proof.
  intros effects.
  assert (Hnd : NoDup (Py.keys effects)).
  { simpl. repeat constructor; simpl; intuition discriminate. }
  split; [|split].
  - exact (proj1 (proj2 (apply_effects_pointwise effects new_stats "economy" Hnd))).
  - exact (proj1 (proj2 (apply_effects_pointwise effects new_stats "happiness" Hnd))).
  - exact (proj1 (proj2 (apply_effects_pointwise effects new_stats "stability" Hnd))).
Defined.

Lemma get_Permutation {V : Type} (d1 d2 : Py.dict V) (k : string) :
  NoDup (Py.keys d1) -> Permutation d1 d2 -> Py.get d1 k = Py.get d2 k.
Proof.
  intros Hnd Hperm.
  assert (Hnd2 : NoDup (Py.keys d2)).
  { eapply Permutation_NoDup; [|exact Hnd]. apply Permutation_map, Hperm. }
  destruct (Py.get d1 k) as [v|] eqn:H1.
  - symmetry. apply (get_In d2 k v Hnd2).
    eapply Permutation_in; [exact Hperm|]. apply (get_In d1 k v Hnd), H1.
  - destruct (Py.get d2 k) as [v|] eqn:H2; [|reflexivity].
    apply (get_In d2 k v Hnd2) in H2.
    apply (Permutation_in _ (Permutation_sym Hperm)) in H2.
    apply (get_In d1 k v Hnd) in H2. congruence.
Qed.

(** X3: the order in which an effects dictionary lists its statistics
    does not matter. *)
Theorem apply_effects_order_independent (effects effects' s : Py.dict Z) :
  NoDup (Py.keys effects) ->
  NoDup (Py.keys s) ->
  Permutation effects effects' ->
  apply_effects_loop effects s = apply_effects_loop effects' s.
Proof.
  intros Hnd Hs Hperm.
  assert (Hnd' : NoDup (Py.keys effects')).
  { eapply Permutation_NoDup; [|exact Hnd]. apply Permutation_map, Hperm. }
  apply dict_ext.
  - rewrite !apply_effects_loop_keys. reflexivity.
  - rewrite apply_effects_loop_keys. exact Hs.
  - intros k. rewrite !apply_effects_loop_get by assumption.
    rewrite (get_Permutation effects effects' k Hnd Hperm). reflexivity.
Qed.

Lemma apply_effects_order_independent_witness :
  apply_effects_loop [("economy", -10); ("happiness", 20); ("stability", 5)] new_stats =
  apply_effects_loop [("stability", 5); ("economy", -10); ("happiness", 20)] new_stats.
Proof.
  apply apply_effects_order_independent.
  - simpl. repeat constructor; simpl; intuition discriminate.
  - simpl. repeat constructor; simpl; intuition discriminate.
  - apply Permutation_sym, (Permutation_cons_append [("economy", -10); ("happiness", 20)]).
Defined.

(** *** Game over, whatever the values *)

Lemma check_game_over_loop_cases (s : Py.dict Z) :
  wf_stats s ->
  ((exists v, In v (Py.values s) /\ v <= 0) /\
   exists name cause,
     In name stat_names /\ Py.get causes name = Some cause /\
     check_game_over_loop s = Py.Ok (true, cause)) \/
  ((forall v, In v (Py.values s) -> 0 < v) /\
   check_game_over_loop s = Py.Ok (false, "")).
Proof.
  intros Hwf.
  destruct (wf_stats_getitem s Hwf) as (e & h & st & r & m & env & ->).
  cbn [check_game_over_loop Py.values map snd].
  nonpositive_case e "economy".
  nonpositive_case h "happiness".
  nonpositive_case st "stability".
  nonpositive_case r "relations".
  nonpositive_case m "military_power".
  nonpositive_case env "environment".
  right. split; [|reflexivity].
  simpl. intros v Hv.
  repeat destruct Hv as [<-|Hv]; try assumption. contradiction.
Qed.

(** X4: with the six statistics in place, [check_game_over] never
    raises; it reports game over exactly when some value is 0 or below, a
    negative value included, and otherwise returns [(False, "")]. *)
Theorem check_game_over_tests_nonpositive (s : Py.dict Z) :
  wf_stats s ->
  ((exists cause, check_game_over_loop s = Py.Ok (true, cause)) <->
   (exists v, In v (Py.values s) /\ v <= 0)) /\
  (check_game_over_loop s = Py.Ok (false, "") <->
   (forall v, In v (Py.values s) -> 0 < v)).
Proof.
  intros Hwf.
  destruct (check_game_over_loop_cases s Hwf)
    as [[Hlow (name & cause & _ & _ & Hover)] | [Hpos Hover]].
  - split; split.
    + intros _. exact Hlow.
    + intros _. exists cause. exact Hover.
    + rewrite Hover. discriminate.
    + intros Hpos. destruct Hlow as (v & Hin & Hv). specialize (Hpos v Hin). lia.
  - split; split.
    + rewrite Hover. intros [cause Hcause]. discriminate Hcause.
    + intros (v & Hin & Hv). specialize (Hpos v Hin). lia.
    + intros _. exact Hpos.
    + intros _. exact Hover.
Qed.

Lemma check_game_over_tests_nonpositive_witness :
  let s := [ ("economy", 40); ("happiness", 100); ("stability", -7);
             ("relations", 50); ("military_power", 50); ("environment", 50) ] in
  exists cause, check_game_over_loop s = Py.Ok (true, cause).
Proof.
  intros s.
  apply (proj1 (check_game_over_tests_nonpositive s eq_refl)).
  exists (-7). split; [simpl; auto 10 | lia].
Defined.

(** *** What a decision records and what it leaves alone *)

Lemma save_high_score_frame (score_data : ScoreData) (d d' : DB) :
  save_high_score score_data d = Py.Ok d' ->
  game_sessions d' = game_sessions d /\
  game_sessions_seq d' = game_sessions_seq d /\
  game_events d' = game_events d /\
  game_events_seq d' = game_events_seq d /\
  clock d' = clock d.
Proof.
  unfold save_high_score. intros H.
  repeat match type of H with
         | context [Py.getitem ?s ?k] => destruct (Py.getitem s k); [|discriminate]
         end.
  injection H as <-. repeat split.
Qed.

Lemma game_over_screen_row (cause : string) (g : Game) :
  wf_stats (stats g) ->
  exists row,
    db (snd (game_over_screen cause g)) =
      with_high_scores (db g) (high_scores (db g) ++ [row]) (high_scores_seq (db g) + 1) /\
    HighScores.id row = high_scores_seq (db g) + 1 /\
    HighScores.player_name row = player_name g /\
    HighScores.country_name row = country_name g /\
    HighScores.years_survived row = current_year g - 2024 /\
    HighScores.turns_survived row = current_turn g /\
    HighScores.cause_of_downfall row = cause /\
    HighScores.achieved_at row = clock (db g).
Proof.
  intros Hwf. destruct g as [d s year turn country player event].
  cbn [stats] in Hwf.
  destruct (wf_stats_getitem s Hwf) as (e & h & st & r & m & env & ->).
  eexists. repeat split.
Qed.

Lemma game_over_screen_frame (cause : string) (g : Game) :
  let g' := snd (game_over_screen cause g) in
  game_sessions (db g') = game_sessions (db g) /\
  game_sessions_seq (db g') = game_sessions_seq (db g) /\
  game_events (db g') = game_events (db g) /\
  game_events_seq (db g') = game_events_seq (db g) /\
  clock (db g') = clock (db g) /\
  country_name g' = country_name g /\
  player_name g' = player_name g /\
  current_event g' = current_event g.
Proof.
  unfold game_over_screen.
  destruct (save_high_score _ (db g)) as [d'|e] eqn:Hsave; cbn.
  - destruct (save_high_score_frame _ _ _ Hsave) as (-> & -> & -> & -> & ->).
    repeat split.
  - repeat split.
Qed.

Lemma after_decision_frame (chosen_option : GameOption) (g : Game) :
  db (after_decision chosen_option g) = db g /\
  country_name (after_decision chosen_option g) = country_name g /\
  player_name (after_decision chosen_option g) = player_name g /\
  current_event (after_decision chosen_option g) = current_event g.
Proof.
  unfold after_decision. cbn [current_turn set_current_turn set_stats].
  destruct (_ mod 4 =? 0); repeat split.
Qed.

(** X5: a decision on a game with the six statistics records a score
    exactly when it leaves a statistic at 0 or below: then one row is
    appended to [high_scores], with the player, the country, the years
    since 2024 and the turn count after the decision; otherwise the
    database is left as it was. *)
Theorem decision_records_score_iff_over (g : Game) (event : Event)
    (choice_index : Z) (chosen_option : GameOption) :
  current_event g = Some event ->
  Py.index (options event) choice_index = Py.Ok chosen_option ->
  wf_stats (stats g) ->
  let g' := snd (make_decision choice_index g) in
  ((exists v, In v (Py.values (stats g')) /\ v <= 0) ->
   exists row,
     high_scores (db g') = high_scores (db g) ++ [row] /\
     HighScores.player_name row = player_name g /\
     HighScores.country_name row = country_name g /\
     HighScores.years_survived row = current_year g' - 2024 /\
     HighScores.turns_survived row = current_turn g + 1) /\
  ((forall v, In v (Py.values (stats g')) -> 0 < v) -> db g' = db g).
Proof.
  intros Hev Hidx Hwf g'. subst g'.
  rewrite make_decision_unfold, Hev, Hidx. cbv zeta.
  set (g1 := after_decision chosen_option g).
  assert (Hwf1 : wf_stats (stats g1)).
  { unfold wf_stats, g1.
    rewrite after_decision_stats, apply_effects_loop_keys. exact Hwf. }
  destruct (after_decision_frame chosen_option g) as (Hdb & Hcountry & Hplayer & _).
  fold g1 in Hdb, Hcountry, Hplayer.
  destruct (check_game_over_loop_cases (stats g1) Hwf1)
    as [[Hlow (name & cause & _ & _ & Hover)] | [Hpos Hover]]; rewrite Hover.
  - destruct (game_over_screen_game cause g1) as (_ & Hstats & Hturn & Hyear).
    destruct (game_over_screen_row cause g1 Hwf1)
      as (row & Hrow & _ & Hp & Hc & Hy & Ht & _).
    split.
    + intros _. exists row. rewrite Hrow, Hyear. cbn [high_scores with_high_scores].
      rewrite Hdb, Hp, Hc, Hy, Ht, Hplayer, Hcountry.
      repeat split. apply after_decision_turn.
    + rewrite Hstats. intros Hpos. destruct Hlow as (v & Hin & Hv).
      specialize (Hpos v Hin). lia.
  - cbn [fst snd]. split.
    + intros (v & Hin & Hv). specialize (Hpos v Hin). lia.
    + intros _. exact Hdb.
Qed.

Lemma decision_records_score_iff_over_witness :
  let event := {| title := "Currency crash"; description := "The currency collapses.";
                  options := [ {| text := "Default on the debt";
                                  effects := [("economy", -60)];
                                  reason := "Creditors leave." |} ] |} in
  let g := set_current_event new_game (Some event) in
  exists row,
    high_scores (db (snd (make_decision 0 g))) = [row] /\
    HighScores.years_survived row = 0 /\
    HighScores.turns_survived row = 1.
Proof.
  intros event g.
  destruct (decision_records_score_iff_over g event 0 _ eq_refl eq_refl eq_refl)
    as [Hover _].
  destruct Hover as (row & Hrows & _ & _ & Hy & Ht).
  - exists 0. split; [vm_compute; auto 10 | lia].
  - exists row. split; [exact Hrows|]. split; [exact Hy | exact Ht].
Defined.

(** X6: with the six statistics in place, a decision that raises leaves
    the game exactly as it was, and it raises only for a missing current
    event ([TypeError]) or an index outside the option list
    ([IndexError]). *)
Theorem decision_failure_changes_nothing (g : Game) (choice_index : Z) (e : Py.exn) :
  wf_stats (stats g) ->
  fst (make_decision choice_index g) = Py.Raise e ->
  snd (make_decision choice_index g) = g /\
  ((e = Py.TypeError /\ current_event g = None) \/
   (e = Py.IndexError /\
    exists event,
      current_event g = Some event /\
      (choice_index < - Z.of_nat (List.length (options event)) \/
       Z.of_nat (List.length (options event)) <= choice_index))).
Proof.
  intros Hwf. rewrite make_decision_unfold.
  destruct (current_event g) as [event|] eqn:Hev.
  - destruct (Py.index (options event) choice_index) as [opt|e'] eqn:Hidx.
    + cbv zeta. set (g1 := after_decision opt g).
      destruct (check_game_over_loop_total (stats g1)) as [[over cause] Hover].
      { unfold wf_stats, g1.
        rewrite after_decision_stats, apply_effects_loop_keys. exact Hwf. }
      rewrite Hover. destruct over.
      * destruct (game_over_screen_game cause g1) as (-> & _). discriminate.
      * discriminate.
    + cbn [fst snd]. intros H. injection H as ->. split; [reflexivity|].
      right.
      set (n := Z.of_nat (List.length (options event))) in *.
      destruct (Z_lt_le_dec choice_index (- n)) as [|Hlo].
      { split; [|exists event; auto].
        rewrite index_out_of_bounds in Hidx by (fold n; lia). congruence. }
      destruct (Z_lt_le_dec choice_index n) as [Hhi|].
      { destruct (index_in_bounds (options event) choice_index) as (a & Ha & _);
          [fold n; lia | congruence]. }
      split; [|exists event; auto].
      rewrite index_out_of_bounds in Hidx by (fold n; lia). congruence.
  - cbn [fst snd]. intros H. injection H as <-. auto.
Qed.

Lemma decision_failure_changes_nothing_witness :
  snd (make_decision 0 (init (empty_db 0))) = init (empty_db 0) /\
  snd (make_decision 9 new_game) = new_game.
Proof.
  split.
  - exact (proj1 (decision_failure_changes_nothing (init (empty_db 0)) 0 Py.TypeError
                    eq_refl eq_refl)).
  - exact (proj1 (decision_failure_changes_nothing new_game 9 Py.IndexError
                    eq_refl eq_refl)).
Defined.

(** Whatever its outcome, [make_decision] leaves the saved sessions, the
    event catalog, the clock, the names of country and player and the
    current event untouched. *)
Lemma make_decision_frame (g : Game) (choice_index : Z) :
  let g' := snd (make_decision choice_index g) in
  game_sessions (db g') = game_sessions (db g) /\
  game_sessions_seq (db g') = game_sessions_seq (db g) /\
  game_events (db g') = game_events (db g) /\
  game_events_seq (db g') = game_events_seq (db g) /\
  clock (db g') = clock (db g) /\
  country_name g' = country_name g /\
  player_name g' = player_name g /\
  current_event g' = current_event g.
Proof.
  cbv zeta. rewrite make_decision_unfold.
  destruct (current_event g) as [event|] eqn:Hev;
    [|cbn [snd]; rewrite Hev; repeat split].
  destruct (Py.index (options event) choice_index) as [opt|e];
    [|cbn [snd]; rewrite Hev; repeat split].
  cbv zeta.
  destruct (after_decision_frame opt g) as (Hdb & Hcountry & Hplayer & Hevent).
  destruct (check_game_over_loop _) as [[[] cause]|e]; cbn [snd].
  - destruct (game_over_screen_frame cause (after_decision opt g))
      as (-> & -> & -> & -> & -> & -> & -> & ->).
    rewrite Hdb, Hcountry, Hplayer, Hevent, Hev. repeat split.
  - rewrite Hdb, Hcountry, Hplayer, Hevent, Hev. repeat split.
  - rewrite Hdb, Hcountry, Hplayer, Hevent, Hev. repeat split.
Qed.

Lemma make_decision_keys (g : Game) (choice_index : Z) :
  Py.keys (stats (snd (make_decision choice_index g))) = Py.keys (stats g).
Proof.
  rewrite make_decision_unfold.
  destruct (current_event g) as [event|]; [|reflexivity].
  destruct (Py.index (options event) choice_index) as [opt|e]; [|reflexivity].
  cbv zeta.
  destruct (check_game_over_loop _) as [[[] cause]|e]; cbn [snd];
    try (destruct (game_over_screen_game cause (after_decision opt g)) as (_ & -> & _));
    rewrite after_decision_stats; apply apply_effects_loop_keys.
Qed.

Lemma load_game_wf (save_name : string) (d : DB) (game_state : GameState) :
  load_game save_name d = Some game_state -> wf_stats (gs_stats game_state).
Proof.
  unfold load_game. destruct (find _ (game_sessions d)); [|discriminate].
  intros H. injection H as <-. reflexivity.
Qed.

Lemma step_wf (g g' : Game) : step g g' -> wf_stats (stats g) -> wf_stats (stats g').
Proof.
  intros Hstep Hwf. destruct Hstep; cbn.
  - reflexivity.
  - exact Hwf.
  - unfold wf_stats. rewrite make_decision_keys. exact Hwf.
  - unfold save_game_dialog.
    destruct (String.eqb save_name ""); [exact Hwf|].
    destruct (save_game _ _ (db g)); exact Hwf.
  - unfold load_selected_game.
    destruct (load_game save_name (db g)) as [game_state|] eqn:Hload; [|exact Hwf].
    cbn. eapply load_game_wf, Hload.
  - exact Hwf.
Qed.

(** X7: once the game holds the six statistics it holds them, in the
    same order, after every action, whatever the saved sessions contain;
    so with a current event and an index inside its option list
    [make_decision] always returns normally. *)
Theorem six_stats_always_in_place (g0 g : Game) :
  wf_stats (stats g0) ->
  reachable g0 g ->
  wf_stats (stats g) /\
  forall event choice_index chosen_option,
    current_event g = Some event ->
    Py.index (options event) choice_index = Py.Ok chosen_option ->
    fst (make_decision choice_index g) = Py.Ok tt.
Proof.
  intros Hwf0 Hreach.
  assert (Hwf : wf_stats (stats g)).
  { induction Hreach as [|g1 g2 _ IH Hstep]; [exact Hwf0|].
    eapply step_wf; eassumption. }
  split; [exact Hwf|].
  intros event i opt Hev Hidx.
  apply (make_decision_succeeds i g event opt Hev Hidx Hwf).
Qed.

Lemma six_stats_always_in_place_witness :
  let g := snd (make_decision 1 new_game) in
  wf_stats (stats g) /\ fst (make_decision (-2) g) = Py.Ok tt.
Proof.
  intros g.
  assert (Hreach : reachable new_game g).
  { apply reachable_step with (g := new_game);
      [apply reachable_here | apply step_make_decision]. }
  destruct (six_stats_always_in_place new_game g eq_refl Hreach) as [Hwf Hok].
  split; [exact Hwf|].
  eapply Hok; reflexivity.
Defined.

(** *** Drawing events *)

Lemma nth_error_in_bounds {A : Type} (l : list A) (n : nat) :
  (n < List.length l)%nat -> exists a, nth_error l n = Some a /\ In a l.
Proof.
  intros Hn. destruct (nth_error l n) as [a|] eqn:Hnth.
  - exists a. split; [reflexivity | eapply nth_error_In, Hnth].
  - apply nth_error_None in Hnth. lia.
Qed.

Lemma get_random_event_some (rnd : nat) (d : DB) :
  game_events d <> [] ->
  exists row,
    In row (game_events d) /\
    get_random_event rnd d =
      Some {| title := GameEvents.title row;
              description := GameEvents.description row;
              options := GameEvents.options row |}.
Proof.
  intros Hne. unfold get_random_event.
  destruct (game_events d) as [|r rows] eqn:Hrows; [congruence|].
  destruct (nth_error_in_bounds (r :: rows) (Nat.modulo rnd (List.length (r :: rows))))
    as (row & Hnth & Hin).
  { apply Nat.mod_upper_bound. simpl. lia. }
  exists row. split; [exact Hin|]. rewrite Hnth. reflexivity.
Qed.

(** X8: [get_random_event] returns [None] exactly when the catalog is
    empty, and every event it returns is the title, description and
    option list of a stored row. *)
Theorem random_event_comes_from_catalog (rnd : nat) (d : DB) :
  (get_random_event rnd d = None <-> game_events d = []) /\
  (forall event,
      get_random_event rnd d = Some event ->
      exists row,
        In row (game_events d) /\
        title event = GameEvents.title row /\
        description event = GameEvents.description row /\
        options event = GameEvents.options row).
Proof.
  split; [split|].
  - intros Hnone. destruct (game_events d) as [|r rows] eqn:Hrows; [reflexivity|].
    destruct (get_random_event_some rnd d) as (row & _ & Hsome);
      [rewrite Hrows; discriminate | congruence].
  - intros Hempty. unfold get_random_event. rewrite Hempty. reflexivity.
  - intros event Hsome.
    destruct (game_events d) as [|r rows] eqn:Hrows.
    + unfold get_random_event in Hsome. rewrite Hrows in Hsome. discriminate.
    + destruct (get_random_event_some rnd d) as (row & Hin & Hrow);
        [rewrite Hrows; discriminate|].
      rewrite Hrows in Hin. exists row. split; [exact Hin|].
      rewrite Hrow in Hsome. injection Hsome as <-. repeat split.
Qed.

Lemma random_event_comes_from_catalog_witness :
  exists event row,
    get_random_event 12 (init_database (empty_db 0)) = Some event /\
    In row (game_events (init_database (empty_db 0))) /\
    title event = GameEvents.title row.
Proof.
  destruct (get_random_event 12 (init_database (empty_db 0))) as [event|] eqn:Hdraw.
  - destruct (proj2 (random_event_comes_from_catalog 12 (init_database (empty_db 0)))
                event Hdraw) as (row & Hin & Htitle & _).
    exists event, row. repeat split; assumption.
  - vm_compute in Hdraw. discriminate Hdraw.
Defined.

Lemma init_database_nonempty (file : DB) : game_events (init_database file) <> [].
Proof.
  unfold init_database.
  destruct (game_events file) as [|r rows] eqn:Hrows.
  - destruct (populate_default_events_empty file Hrows) as [_ Hlen].
    intros Hnil. rewrite Hnil in Hlen. discriminate Hlen.
  - rewrite populate_default_events_nonempty; rewrite Hrows; discriminate.
Qed.

Lemma save_game_frame (save_name : string) (game_state : GameState) (d d' : DB) :
  save_game save_name game_state d = Py.Ok d' ->
  high_scores d' = high_scores d /\
  high_scores_seq d' = high_scores_seq d /\
  game_events d' = game_events d /\
  game_events_seq d' = game_events_seq d /\
  clock d' = clock d.
Proof.
  unfold save_game. intros H.
  repeat match type of H with
         | context [Py.getitem ?s ?k] => destruct (Py.getitem s k); [|discriminate]
         end.
  injection H as <-. repeat split.
Qed.

Lemma step_game_events (g g' : Game) :
  step g g' -> game_events (db g') = game_events (db g).
Proof.
  intros Hstep. destruct Hstep; cbn; try reflexivity.
  - apply make_decision_frame.
  - unfold save_game_dialog.
    destruct (String.eqb save_name ""); [reflexivity|].
    destruct (save_game _ _ (db g)) as [d'|e] eqn:Hsave; [|reflexivity].
    cbn. apply (save_game_frame _ _ _ _ Hsave).
  - unfold load_selected_game.
    destruct (load_game save_name (db g)); reflexivity.
Qed.

(** X9: once the application has opened its database, the event catalog
    is never empty and never changes while the game runs, so drawing the
    next event always yields an event. *)
Theorem catalog_never_empty (file : DB) (g : Game) (rnd : nat) :
  reachable (init file) g ->
  game_events (db g) = game_events (init_database file) /\
  game_events (db g) <> [] /\
  exists event, current_event (snd (load_next_event rnd g)) = Some event.
Proof.
  intros Hreach.
  assert (Hsame : game_events (db g) = game_events (init_database file)).
  { induction Hreach as [|g1 g2 _ IH Hstep]; [reflexivity|].
    rewrite (step_game_events _ _ Hstep). exact IH. }
  assert (Hne : game_events (db g) <> []).
  { rewrite Hsame. apply init_database_nonempty. }
  split; [exact Hsame|]. split; [exact Hne|].
  destruct (get_random_event_some rnd (db g) Hne) as (row & _ & Hdraw).
  eexists. cbn. exact Hdraw.
Qed.

Lemma catalog_never_empty_witness :
  let g := snd (make_decision 0 new_game) in
  exists event, current_event (snd (load_next_event 5 g)) = Some event.
Proof.
  intros g.
  assert (Hreach : reachable (init (empty_db 0)) g).
  { apply reachable_step with (g := new_game); [|apply step_make_decision].
    apply reachable_step with (g := init (empty_db 0));
      [apply reachable_here | apply step_start_game]. }
  exact (proj2 (proj2 (catalog_never_empty (empty_db 0) g 5 Hreach))).
Defined.

(** *** Loading and saving, further *)

(** X10: [load_game] answers [None] exactly when no session is stored
    under the name, and [load_selected_game] then leaves the game as it
    is. *)
Theorem load_of_unknown_name (save_name : string) (g : Game) (rnd : nat) :
  (load_game save_name (db g) = None <->
   forall row, In row (game_sessions (db g)) -> GameSessions.save_name row <> save_name) /\
  (load_game save_name (db g) = None ->
   load_selected_game save_name rnd g = (Py.Ok tt, g)).
Proof.
  split; [split|].
  - unfold load_game. intros Hnone row Hin Hname.
    destruct (find _ (game_sessions (db g))) as [r|] eqn:Hfind; [discriminate|].
    pose proof (find_none _ _ Hfind row Hin) as Hrow. cbn in Hrow.
    rewrite Hname, String.eqb_refl in Hrow. discriminate Hrow.
  - intros Hall. unfold load_game.
    destruct (find _ (game_sessions (db g))) as [r|] eqn:Hfind; [|reflexivity].
    apply find_some in Hfind as [Hin Hname].
    apply String.eqb_eq in Hname. exfalso. exact (Hall r Hin Hname).
  - intros Hnone. unfold load_selected_game. rewrite Hnone. reflexivity.
Qed.

Lemma load_of_unknown_name_witness :
  load_selected_game "nobody" 3 new_game = (Py.Ok tt, new_game).
Proof.
  apply (proj2 (load_of_unknown_name "nobody" new_game 3)). reflexivity.
Defined.

Lemma save_game_row (save_name : string) (game_state : GameState) (d d' : DB) :
  save_game save_name game_state d = Py.Ok d' ->
  exists row,
    d' = with_game_sessions d
           (filter (fun r => negb (String.eqb (GameSessions.save_name r) save_name))
                   (game_sessions d) ++ [row])
           (game_sessions_seq d + 1) /\
    GameSessions.id row = game_sessions_seq d + 1 /\
    GameSessions.save_name row = save_name /\
    GameSessions.country_name row = gs_country_name game_state /\
    GameSessions.current_year row = gs_current_year game_state /\
    GameSessions.current_turn row = gs_current_turn game_state /\
    GameSessions.created_at row = clock d /\
    GameSessions.updated_at row = clock d.
Proof.
  unfold save_game. intros H.
  repeat match type of H with
         | context [Py.getitem ?s ?k] => destruct (Py.getitem s k); [|discriminate]
         end.
  injection H as <-. eexists. repeat split.
Qed.

Lemma load_game_same_sessions (save_name : string) (d d' : DB) :
  game_sessions d' = game_sessions d -> load_game save_name d' = load_game save_name d.
Proof. unfold load_game. intros ->. reflexivity. Qed.

Lemma find_after_replace (name other : string) (l : list GameSessions.row)
    (row : GameSessions.row) :
  GameSessions.save_name row = name -> other <> name ->
  find (fun r => String.eqb (GameSessions.save_name r) other)
    (filter (fun r => negb (String.eqb (GameSessions.save_name r) name)) l ++ [row]) =
  find (fun r => String.eqb (GameSessions.save_name r) other) l.
Proof.
  intros Hrow Hne. induction l as [|x l IH]; simpl.
  - rewrite Hrow. destruct (String.eqb_spec name other); [congruence | reflexivity].
  - destruct (String.eqb_spec (GameSessions.save_name x) name) as [Hx|Hx]; simpl.
    + destruct (String.eqb_spec (GameSessions.save_name x) other); [congruence|exact IH].
    + destruct (String.eqb (GameSessions.save_name x) other); [reflexivity|exact IH].
Qed.

Lemma save_game_load_other (name other : string) (game_state : GameState) (d d' : DB) :
  save_game name game_state d = Py.Ok d' -> other <> name ->
  load_game other d' = load_game other d.
Proof.
  intros Hsave Hne.
  destruct (save_game_row _ _ _ _ Hsave) as (row & -> & _ & Hname & _).
  unfold load_game. cbn [game_sessions with_game_sessions].
  rewrite (find_after_replace name other _ row Hname Hne). reflexivity.
Qed.

Lemma step_keeping_load (name : string) (g g' : Game) :
  step_keeping name g g' -> load_game name (db g') = load_game name (db g).
Proof.
  intros Hstep. destruct Hstep; cbn; try reflexivity.
  - apply load_game_same_sessions, make_decision_frame.
  - unfold save_game_dialog.
    destruct (String.eqb other ""); [reflexivity|].
    destruct (save_game _ _ (db g)) as [d'|e] eqn:Hsave; [|reflexivity].
    cbn. eapply save_game_load_other; [exact Hsave | congruence].
  - unfold load_selected_game.
    destruct (load_game save_name (db g)); reflexivity.
Qed.

(** X11: a game saved under a name comes back as it was saved: after
    any further play, new games, loads, and saves under other names,
    loading the name restores the statistics, the year, the turn and the
    country of the moment of saving.  The player's name is not part of a
    save and stays what it was before loading. *)
Theorem saved_game_comes_back (save_name : string) (g g' : Game) (rnd : nat) :
  wf_stats (stats g) ->
  save_name <> "" ->
  reachable_keeping save_name (snd (save_game_dialog save_name g)) g' ->
  let g'' := snd (load_selected_game save_name rnd g') in
  stats g'' = stats g /\
  current_year g'' = current_year g /\
  current_turn g'' = current_turn g /\
  country_name g'' = country_name g /\
  player_name g'' = player_name g'.
Proof.
  intros Hwf Hname Hreach.
  set (saved := {| gs_country_name := country_name g;
                   gs_current_year := current_year g;
                   gs_current_turn := current_turn g;
                   gs_stats := stats g |}).
  assert (Hload : load_game save_name (db g') = Some saved).
  { induction Hreach as [|g1 g2 _ IH Hstep].
    - unfold save_game_dialog.
      destruct (String.eqb_spec save_name ""); [contradiction|].
      destruct (save_game_then_load save_name saved (db g) Hwf) as (d' & Hsave & Hl & _).
      fold saved. rewrite Hsave. exact Hl.
    - rewrite (step_keeping_load _ _ _ Hstep). exact IH. }
  cbv zeta. unfold load_selected_game. rewrite Hload. cbn. repeat split.
Qed.

Lemma saved_game_comes_back_witness :
  let g1 := snd (save_game_dialog "alpha" new_game) in
  let g2 := snd (make_decision 1 g1) in
  let g3 := snd (save_game_dialog "beta" g2) in
  stats (snd (load_selected_game "alpha" 0 g3)) = new_stats /\
  current_turn (snd (load_selected_game "alpha" 0 g3)) = 0.
Proof.
  intros g1 g2 g3.
  assert (Hreach : reachable_keeping "alpha" g1 g3).
  { apply keeping_step with (g := g2); [|apply keeping_save_other; discriminate].
    apply keeping_step with (g := g1); [apply keeping_here|].
    apply keeping_make_decision. }
  assert (Hname : "alpha" <> "") by discriminate.
  destruct (saved_game_comes_back "alpha" new_game g3 0 eq_refl Hname Hreach)
    as (Hstats & _ & Hturn & _).
  split; [exact Hstats | exact Hturn].
Defined.



(** X13: saving again under a name replaces the row: the name then holds
    one row with a fresh id and with both timestamps at the time of the
    second save, so the creation time of the first save is not kept. *)
Theorem overwrite_gets_new_row (save_name : string) (A B : GameState)
    (d d1 d2 : DB) (later : Z) :
  save_game save_name A d = Py.Ok d1 ->
  save_game save_name B (with_clock d1 later) = Py.Ok d2 ->
  exists row,
    sessions_named save_name d2 = [row] /\
    GameSessions.id row = game_sessions_seq d + 2 /\
    GameSessions.created_at row = later /\
    GameSessions.updated_at row = later /\
    GameSessions.country_name row = gs_country_name B.
Proof.
  intros H1 H2.
  destruct (save_game_row _ _ _ _ H1) as (row1 & -> & _).
  destruct (save_game_row _ _ _ _ H2)
    as (row2 & -> & Hid & Hname & Hcountry & _ & _ & Hcreated & Hupdated).
  exists row2. cbn in Hid, Hcreated, Hupdated.
  split; [|repeat split; try assumption; lia].
  unfold sessions_named. cbn [game_sessions with_game_sessions with_clock].
  rewrite filter_app, filter_filter_negb. cbn.
  rewrite Hname, String.eqb_refl. reflexivity.
Qed.

Lemma overwrite_gets_new_row_witness :
  let A := {| gs_country_name := "Utopia"; gs_current_year := 2024;
              gs_current_turn := 1; gs_stats := new_stats |} in
  let B := {| gs_country_name := "Arcadia"; gs_current_year := 2025;
              gs_current_turn := 5; gs_stats := new_stats |} in
  exists d1 d2 row,
    save_game "alpha" A (empty_db 10) = Py.Ok d1 /\
    save_game "alpha" B (with_clock d1 99) = Py.Ok d2 /\
    sessions_named "alpha" d2 = [row] /\
    GameSessions.id row = 2 /\
    GameSessions.created_at row = 99.
Proof.
  intros A B.
  pose (d1 := match save_game "alpha" A (empty_db 10) with
              | Py.Ok d => d
              | Py.Raise _ => empty_db 10
              end).
  pose (d2 := match save_game "alpha" B (with_clock d1 99) with
              | Py.Ok d => d
              | Py.Raise _ => d1
              end).
  assert (H1 : save_game "alpha" A (empty_db 10) = Py.Ok d1) by reflexivity.
  assert (H2 : save_game "alpha" B (with_clock d1 99) = Py.Ok d2) by reflexivity.
  destruct (overwrite_gets_new_row "alpha" A B _ _ _ 99 H1 H2)
    as (row & Hrows & Hid & Hcreated & _).
  exists d1, d2, row. repeat split; assumption.
Defined.

(** *** Invariants of a running game *)

Lemma save_high_score_appends (score_data : ScoreData) (d d' : DB) :
  save_high_score score_data d = Py.Ok d' ->
  exists row,
    d' = with_high_scores d (high_scores d ++ [row]) (high_scores_seq d + 1) /\
    HighScores.id row = high_scores_seq d + 1 /\
    HighScores.years_survived row = sd_years_survived score_data /\
    HighScores.turns_survived row = sd_turns_survived score_data.
Proof.
  unfold save_high_score. intros H.
  repeat match type of H with
         | context [Py.getitem ?s ?k] => destruct (Py.getitem s k); [|discriminate]
         end.
  injection H as <-. eexists. repeat split.
Qed.

(** The three ways [make_decision] can leave the database: untouched, or
    with one score row appended for the counters it has just advanced. *)
Lemma make_decision_db (g : Game) (choice_index : Z) :
  let g' := snd (make_decision choice_index g) in
  db g' = db g \/
  exists row,
    db g' = with_high_scores (db g) (high_scores (db g) ++ [row])
                             (high_scores_seq (db g) + 1) /\
    HighScores.id row = high_scores_seq (db g) + 1 /\
    HighScores.years_survived row = current_year g' - 2024 /\
    HighScores.turns_survived row = current_turn g' /\
    current_turn g' = current_turn g + 1.
Proof.
  cbv zeta. rewrite make_decision_unfold.
  destruct (current_event g) as [event|]; [|left; reflexivity].
  destruct (Py.index (options event) choice_index) as [opt|e]; [|left; reflexivity].
  cbv zeta. set (g1 := after_decision opt g).
  assert (Hdb : db g1 = db g) by apply after_decision_db.
  destruct (check_game_over_loop _) as [[[] cause]|e]; cbn [snd];
    [|left; exact Hdb|left; exact Hdb].
  destruct (game_over_screen_game cause g1) as (_ & _ & Hturn & Hyear).
  unfold game_over_screen in *.
  destruct (save_high_score _ (db g1)) as [d'|e] eqn:Hsave; cbn in *;
    [|left; exact Hdb].
  right. destruct (save_high_score_appends _ _ _ Hsave) as (row & -> & Hid & Hy & Ht).
  exists row. cbn in Hy, Ht. rewrite Hdb in *.
  repeat split; try assumption.
  unfold g1. apply after_decision_turn.
Qed.

Lemma make_decision_counter_cases (g : Game) (choice_index : Z) :
  let g' := snd (make_decision choice_index g) in
  (current_turn g' = current_turn g /\ current_year g' = current_year g /\
   db g' = db g) \/
  (current_turn g' = current_turn g + 1 /\
   current_year g' =
     current_year g + (if (current_turn g + 1) mod 4 =? 0 then 1 else 0)).
Proof.
  cbv zeta. rewrite make_decision_unfold.
  destruct (current_event g) as [event|]; [|left; repeat split].
  destruct (Py.index (options event) choice_index) as [opt|e]; [|left; repeat split].
  cbv zeta. right.
  destruct (check_game_over_loop _) as [[[] cause]|e]; cbn [snd];
    try (destruct (game_over_screen_game cause (after_decision opt g))
           as (_ & _ & -> & ->));
    rewrite after_decision_turn, after_decision_year; split; reflexivity.
Qed.

Lemma StronglySorted_snoc (ids : list Z) (x : Z) :
  StronglySorted Z.lt ids -> Forall (fun i => i < x) ids ->
  StronglySorted Z.lt (ids ++ [x]).
Proof.
  induction 1 as [|i ids Hsorted IH Hi]; intros Hx; simpl.
  - constructor; constructor.
  - inversion Hx; subst. constructor; [apply IH; assumption|].
    apply Forall_app. split; [exact Hi | constructor; [assumption | constructor]].
Qed.

Lemma ids_increasing_snoc (ids : list Z) (seq : Z) :
  ids_increasing ids seq -> ids_increasing (ids ++ [seq + 1]) (seq + 1).
Proof.
  intros [Hsorted Hle]. split.
  - apply StronglySorted_snoc; [exact Hsorted|].
    eapply Forall_impl; [|exact Hle]. simpl. intros; lia.
  - apply Forall_app. split.
    + eapply Forall_impl; [|exact Hle]. simpl. intros; lia.
    + constructor; [lia | constructor].
Qed.

Lemma ids_increasing_filter {A : Type} (f : A -> bool) (id : A -> Z)
    (l : list A) (seq : Z) :
  ids_increasing (map id l) seq -> ids_increasing (map id (filter f l)) seq.
Proof.
  intros [Hsorted Hle]. induction l as [|x l IH]; simpl in *; [split; constructor|].
  inversion Hsorted as [|? ? Hs Hx]; subst. inversion Hle as [|? ? Hxle Hle']; subst.
  destruct (IH Hs Hle') as [IHs IHle].
  destruct (f x); [|split; assumption].
  simpl. split; constructor; try assumption.
  rewrite Forall_forall in *. intros i Hi. apply Hx.
  apply in_map_iff in Hi as (y & <- & Hy). apply filter_In in Hy as [Hy _].
  apply in_map, Hy.
Qed.

Lemma StronglySorted_lt_NoDup (ids : list Z) : StronglySorted Z.lt ids -> NoDup ids.
Proof.
  induction 1 as [|i ids Hsorted IH Hi]; constructor; [|exact IH].
  intros Hin. rewrite Forall_forall in Hi. specialize (Hi i Hin). lia.
Qed.

Lemma insert_event_ids_ok (d : DB) (event : seed_event) :
  ids_ok d -> ids_ok (insert_event d event).
Proof.
  intros (Hs & Hh & He). unfold ids_ok, insert_event. cbn.
  repeat split; try apply Hs; try apply Hh;
    rewrite map_app; cbn; apply ids_increasing_snoc, He.
Qed.

Lemma init_database_ids_ok (file : DB) : ids_ok file -> ids_ok (init_database file).
Proof.
  unfold init_database, populate_default_events.
  destruct (count_events file >? 0); [tauto|].
  generalize default_events. intros events. revert file.
  induction events as [|event rest IH]; intros d Hd; simpl; [exact Hd|].
  apply IH, insert_event_ids_ok, Hd.
Qed.

Lemma step_ids_ok (g g' : Game) : step g g' -> ids_ok (db g) -> ids_ok (db g').
Proof.
  intros Hstep Hok. destruct Hstep; cbn; try exact Hok.
  - destruct (make_decision_db g choice_index) as [->|(row & -> & Hid & _)];
      [exact Hok|].
    destruct Hok as (Hs & Hh & He). unfold ids_ok. cbn.
    repeat split; try apply Hs; try apply He.
    + rewrite map_app. cbn. rewrite Hid. apply ids_increasing_snoc, Hh.
    + rewrite map_app. cbn. rewrite Hid. apply ids_increasing_snoc, Hh.
  - unfold save_game_dialog.
    destruct (String.eqb save_name ""); [exact Hok|].
    destruct (save_game _ _ (db g)) as [d'|e] eqn:Hsave; [|exact Hok].
    destruct (save_game_row _ _ _ _ Hsave) as (row & -> & Hid & _).
    destruct Hok as (Hs & Hh & He). unfold ids_ok. cbn.
    repeat split; try apply Hh; try apply He;
      rewrite map_app; cbn; rewrite Hid;
      apply ids_increasing_snoc.
    + split; apply (ids_increasing_filter _ GameSessions.id _ _ Hs).
    + split; apply (ids_increasing_filter _ GameSessions.id _ _ Hs).
  - unfold load_selected_game.
    destruct (load_game save_name (db g)); exact Hok.
Qed.

(** X14: the ids of every table stay strictly increasing in row order
    and never exceed the AUTOINCREMENT counter, through seeding, saving,
    overwriting and score recording; so no two rows of a table ever share
    an id. *)
Theorem ids_stay_unique (file : DB) (g : Game) :
  ids_ok file ->
  reachable (init file) g ->
  ids_ok (db g) /\
  NoDup (map GameSessions.id (game_sessions (db g))) /\
  NoDup (map HighScores.id (high_scores (db g))) /\
  NoDup (map GameEvents.id (game_events (db g))).
Proof.
  intros Hfile Hreach.
  assert (Hok : ids_ok (db g)).
  { induction Hreach as [|g1 g2 _ IH Hstep].
    - apply init_database_ids_ok, Hfile.
    - eapply step_ids_ok; eassumption. }
  split; [exact Hok|].
  destruct Hok as ((Hs & _) & (Hh & _) & (He & _)).
  repeat split; apply StronglySorted_lt_NoDup; assumption.
Qed.

Lemma ids_stay_unique_witness :
  let g := snd (save_game_dialog "alpha" (snd (save_game_dialog "alpha" new_game))) in
  map GameSessions.id (game_sessions (db g)) = [2] /\
  NoDup (map GameEvents.id (game_events (db g))).
Proof.
  intros g. split; [reflexivity|].
  assert (Hfile : ids_ok (empty_db 0)).
  { unfold ids_ok, ids_increasing. cbn. repeat split; constructor. }
  assert (Hreach : reachable (init (empty_db 0)) g).
  { apply reachable_step with (g := snd (save_game_dialog "alpha" new_game));
      [|apply step_save_game].
    apply reachable_step with (g := new_game); [|apply step_save_game].
    apply reachable_step with (g := init (empty_db 0));
      [apply reachable_here | apply step_start_game]. }
  exact (proj2 (proj2 (proj2 (ids_stay_unique (empty_db 0) g Hfile Hreach)))).
Defined.

Lemma step_scores (g g' : Game) :
  step g g' -> exists later, high_scores (db g') = high_scores (db g) ++ later.
Proof.
  intros Hstep. destruct Hstep; cbn.
  - exists []. symmetry. apply app_nil_r.
  - exists []. symmetry. apply app_nil_r.
  - destruct (make_decision_db g choice_index) as [->|(row & -> & _)].
    + exists []. symmetry. apply app_nil_r.
    + exists [row]. reflexivity.
  - exists []. rewrite app_nil_r. unfold save_game_dialog.
    destruct (String.eqb save_name ""); [reflexivity|].
    destruct (save_game _ _ (db g)) as [d'|e] eqn:Hsave; [|reflexivity].
    cbn. apply (save_game_frame _ _ _ _ Hsave).
  - exists []. rewrite app_nil_r. unfold load_selected_game.
    destruct (load_game save_name (db g)); reflexivity.
  - exists []. symmetry. apply app_nil_r.
Qed.

(** X15: the score table only grows: whatever the player does, the rows
    recorded before are still there, unchanged and in the same order,
    in front of the rows recorded since. *)
Theorem scores_are_never_lost (g0 g : Game) :
  reachable g0 g ->
  exists later, high_scores (db g) = high_scores (db g0) ++ later.
Proof.
  induction 1 as [|g1 g2 _ [later IH] Hstep].
  - exists []. symmetry. apply app_nil_r.
  - destruct (step_scores _ _ Hstep) as [more Hmore].
    exists (later ++ more). rewrite Hmore, IH. symmetry. apply app_assoc.
Qed.

Lemma scores_are_never_lost_witness :
  let g0 := set_db new_game tied_scores in
  let g := snd (start_game "Eve" "Arcadia" 1 (snd (make_decision 0 g0))) in
  exists later, high_scores (db g) = high_scores tied_scores ++ later.
Proof.
  intros g0 g.
  apply (scores_are_never_lost g0 g).
  apply reachable_step with (g := snd (make_decision 0 g0)); [|apply step_start_game].
  apply reachable_step with (g := g0); [apply reachable_here | apply step_make_decision].
Defined.

Lemma on_calendar_next (year turn : Z) :
  on_calendar year turn ->
  on_calendar (year + (if (turn + 1) mod 4 =? 0 then 1 else 0)) (turn + 1).
Proof.
  intros [Hturn ->]. split; [lia|].
  rewrite <- (quarter_step turn Hturn). lia.
Qed.

Lemma step_calendar (g g' : Game) : step g g' -> calendar_ok g -> calendar_ok g'.
Proof.
  intros Hstep (Hnow & Hsessions & Hscores). destruct Hstep; cbn.
  - unfold calendar_ok, on_calendar. cbn.
    split; [split; [lia | reflexivity]|]. split; assumption.
  - split; [|split]; assumption.
  - destruct (make_decision_frame g choice_index) as (Hsame & _).
    unfold calendar_ok. rewrite Hsame.
    destruct (make_decision_counter_cases g choice_index)
      as [(Ht & Hy & Hdb) | (Ht & Hy)].
    + rewrite Ht, Hy, Hdb. split; [|split]; assumption.
    + assert (Hnext : on_calendar (current_year (snd (make_decision choice_index g)))
                                  (current_turn (snd (make_decision choice_index g)))).
      { rewrite Ht, Hy. apply on_calendar_next, Hnow. }
      split; [exact Hnext|]. split; [exact Hsessions|].
      destruct (make_decision_db g choice_index)
        as [->|(row & -> & _ & Hyears & Hturns & _)]; [exact Hscores|].
      cbn. apply Forall_app. split; [exact Hscores|].
      constructor; [|constructor].
      rewrite Hyears, Hturns. destruct Hnext as [Hpos Hyear].
      rewrite Hyear, Ht. destruct Hnow as [Hturn _]. split; lia.
  - unfold save_game_dialog.
    destruct (String.eqb save_name ""); [split; [|split]; assumption|].
    destruct (save_game _ _ (db g)) as [d'|e] eqn:Hsave;
      [|split; [|split]; assumption].
    destruct (save_game_frame _ _ _ _ Hsave) as (Hhs & _).
    destruct (save_game_row _ _ _ _ Hsave) as (row & Hd' & _ & _ & _ & Hy & Ht & _).
    unfold calendar_ok. cbn. rewrite Hhs.
    split; [exact Hnow|]. split; [|exact Hscores].
    rewrite Hd'. cbn. apply Forall_app. split; [apply Forall_filter, Hsessions|].
    constructor; [|constructor]. rewrite Hy, Ht. exact Hnow.
  - unfold load_selected_game, load_game.
    destruct (find _ (game_sessions (db g))) as [row|] eqn:Hfind;
      [|split; [|split]; assumption].
    cbn. apply find_some in Hfind as [Hin _].
    rewrite Forall_forall in Hsessions.
    split; [apply (Hsessions row Hin)|]. split; [|exact Hscores].
    rewrite Forall_forall. exact Hsessions.
  - split; [|split]; assumption.
Qed.

(** X16: in a game whose counters and stored rows are on the calendar,
    as on a fresh database, the year is always 2024 plus a quarter of the
    turn count, also after saving and loading, and every score ever
    recorded has at least one turn and [years_survived = turns_survived / 4]. *)
Theorem years_follow_turns (g0 g : Game) :
  calendar_ok g0 ->
  reachable g0 g ->
  current_year g = 2024 + current_turn g / 4 /\
  (forall row, In row (high_scores (db g)) ->
     1 <= HighScores.turns_survived row /\
     HighScores.years_survived row = HighScores.turns_survived row / 4) /\
  calendar_ok g.
Proof.
  intros H0 Hreach.
  assert (Hok : calendar_ok g).
  { induction Hreach as [|g1 g2 _ IH Hstep]; [exact H0|].
    eapply step_calendar; eassumption. }
  split; [apply Hok|]. split; [|exact Hok].
  destruct Hok as (_ & _ & Hscores). rewrite Forall_forall in Hscores. exact Hscores.
Qed.

Lemma years_follow_turns_witness :
  let g3 := snd (make_decision 1 (snd (make_decision 1 (snd (make_decision 1 new_game))))) in
  let g := snd (make_decision 1 g3) in
  current_year g = 2024 + current_turn g / 4 /\
  map HighScores.years_survived (high_scores (db g)) = [1] /\
  map HighScores.turns_survived (high_scores (db g)) = [4].
Proof.
  intros g3 g.
  assert (H0 : calendar_ok (init (empty_db 0))).
  { unfold calendar_ok, on_calendar. cbn.
    split; [split; [lia | reflexivity]|]. split; constructor. }
  assert (Hreach : reachable (init (empty_db 0)) g).
  { apply reachable_step with (g := g3); [|apply step_make_decision].
    apply reachable_step
      with (g := snd (make_decision 1 (snd (make_decision 1 new_game))));
      [|apply step_make_decision].
    apply reachable_step with (g := snd (make_decision 1 new_game));
      [|apply step_make_decision].
    apply reachable_step with (g := new_game); [|apply step_make_decision].
    apply reachable_step with (g := init (empty_db 0));
      [apply reachable_here | apply step_start_game]. }
  split; [exact (proj1 (years_follow_turns _ g H0 Hreach))|].
  split; reflexivity.
Defined.

(** *** The two rankings *)

(** X17: right after a save made later than every stored session, every
    answer of [get_saved_games] lists that save first, with the country,
    the year and the time of the save, and has one entry per stored
    session. *)
Theorem latest_save_listed_first (save_name : string) (game_state : GameState)
    (d d' : DB) (out : list saved_game_entry) :
  save_game save_name game_state d = Py.Ok d' ->
  (forall r, In r (game_sessions d) -> GameSessions.updated_at r < clock d) ->
  get_saved_games d' out ->
  (exists rest,
      out = (save_name, gs_country_name game_state,
             gs_current_year game_state, clock d) :: rest) /\
  List.length out = List.length (game_sessions d').
Proof.
  intros Hsave Hearlier (sorted & Hperm & Hsorted & ->).
  split; [|rewrite length_map; symmetry; apply Permutation_length, Hperm].
  destruct (save_game_row _ _ _ _ Hsave)
    as (row & -> & _ & Hname & Hcountry & Hyear & _ & _ & Hupdated).
  cbn [game_sessions with_game_sessions] in Hperm.
  assert (Hold : forall r,
             In r (filter (fun r => negb (String.eqb (GameSessions.save_name r) save_name))
                          (game_sessions d)) ->
             GameSessions.updated_at r < clock d).
  { intros r Hr. apply filter_In in Hr as [Hr _]. apply Hearlier, Hr. }
  assert (Hrow : In row sorted).
  { eapply Permutation_in; [exact Hperm|]. apply in_or_app. right. left. reflexivity. }
  destruct Hsorted as [|x rest Hrest Hx]; [contradiction|].
  assert (Hhead : x = row).
  { assert (Hxin : In x (filter (fun r => negb (String.eqb (GameSessions.save_name r) save_name))
                                (game_sessions d) ++ [row])).
    { eapply Permutation_in; [apply Permutation_sym, Hperm | left; reflexivity]. }
    apply in_app_or in Hxin as [Hxold | [Hxrow | []]]; [|symmetry; exact Hxrow].
    specialize (Hold x Hxold).
    destruct Hrow as [Heq | Hin]; [exact Heq|].
    rewrite Forall_forall in Hx. specialize (Hx row Hin).
    unfold updated_before in Hx. lia. }
  subst x. exists (map saved_game_tuple rest). cbn [map].
  unfold saved_game_tuple at 1. rewrite Hname, Hcountry, Hyear, Hupdated. reflexivity.
Qed.

Lemma latest_save_listed_first_witness :
  let d := match save_game "alpha" {| gs_country_name := "Utopia";
                                      gs_current_year := 2024;
                                      gs_current_turn := 1;
                                      gs_stats := new_stats |} (empty_db 10) with
           | Py.Ok d1 => with_clock d1 20
           | Py.Raise _ => empty_db 10
           end in
  let B := {| gs_country_name := "Arcadia"; gs_current_year := 2030;
              gs_current_turn := 25; gs_stats := new_stats |} in
  exists d' out rest,
    save_game "beta" B d = Py.Ok d' /\
    get_saved_games d' out /\
    out = ("beta", "Arcadia", 2030, 20) :: rest.
Proof.
  intros d B.
  pose (d' := match save_game "beta" B d with Py.Ok x => x | Py.Raise _ => d end).
  assert (Hsave : save_game "beta" B d = Py.Ok d') by reflexivity.
  assert (Hlist : get_saved_games d' (map saved_game_tuple (rev (game_sessions d')))).
  { exists (rev (game_sessions d')). split; [apply Permutation_rev|].
    split; [|reflexivity]. simpl.
    apply SSorted_cons; [apply SSorted_cons; [apply SSorted_nil | apply Forall_nil]|].
    apply Forall_cons; [unfold updated_before; simpl; lia | apply Forall_nil]. }
  assert (Hearlier : forall r, In r (game_sessions d) ->
                               GameSessions.updated_at r < clock d).
  { simpl. intros r [<-|[]]. simpl. lia. }
  destruct (latest_save_listed_first "beta" B d d' _ Hsave Hearlier Hlist)
    as [[rest Hrest] _].
  exists d', (map saved_game_tuple (rev (game_sessions d'))), rest.
  split; [exact Hsave|]. split; [exact Hlist | exact Hrest].
Defined.

(** X18: when scores are stored and the limit is negative or at least 1,
    every answer of [get_leaderboard] starts with a stored row that no
    stored row beats: none survived more years, and none as many years
    and more turns. *)
Theorem leaderboard_leader_is_best (d : DB) (n : Z) (out : list leaderboard_entry) :
  get_leaderboard d n out ->
  n < 0 \/ 1 <= n ->
  high_scores d <> [] ->
  exists row rest,
    out = leaderboard_tuple row :: rest /\
    In row (high_scores d) /\
    forall r, In r (high_scores d) -> score_before row r.
Proof.
  intros (rows & (sorted & Hperm & Hsorted & ->) & ->) Hn Hne.
  destruct Hsorted as [|x rest Hrest Hx].
  { apply Permutation_sym, Permutation_nil in Hperm. contradiction. }
  exists x, (map leaderboard_tuple (sql_limit (n - 1) rest)). split; [|split].
  - unfold sql_limit.
    destruct (Z.ltb_spec n 0), (Z.ltb_spec (n - 1) 0); try lia; [reflexivity|].
    replace (Z.to_nat n) with (S (Z.to_nat (n - 1))) by lia. reflexivity.
  - eapply Permutation_in; [apply Permutation_sym, Hperm | left; reflexivity].
  - intros r Hr. apply (Permutation_in _ Hperm) in Hr as [<-|Hr].
    + apply score_before_refl.
    + rewrite Forall_forall in Hx. apply Hx, Hr.
Qed.

Lemma leaderboard_leader_is_best_witness :
  exists row rest,
    topN tied_scores 10 = leaderboard_tuple row :: rest /\
    In row (high_scores tied_scores).
Proof.
  assert (Hn : 10 < 0 \/ 1 <= 10) by (right; lia).
  assert (Hne : high_scores tied_scores <> []) by discriminate.
  destruct (leaderboard_leader_is_best tied_scores 10 _ (topN_is_an_answer _ _) Hn Hne)
    as (row & rest & Hout & Hin & _).
  exists row, rest. split; assumption.
Defined.

(** X19: with a negative limit, or a limit of at least the number of
    stored scores, every answer of [get_leaderboard] lists every stored
    score exactly once. *)
Theorem leaderboard_lists_every_score (d : DB) (n : Z) (out : list leaderboard_entry) :
  get_leaderboard d n out ->
  n < 0 \/ Z.of_nat (List.length (high_scores d)) <= n ->
  Permutation (map leaderboard_tuple (high_scores d)) out.
Proof.
  intros (rows & (sorted & Hperm & _ & ->) & ->) Hn.
  apply Permutation_map.
  assert (Hall : sql_limit n sorted = sorted).
  { unfold sql_limit. destruct (Z.ltb_spec n 0); [reflexivity|].
    apply firstn_all2. rewrite <- (Permutation_length Hperm). lia. }
  rewrite Hall. exact Hperm.
Qed.

Lemma leaderboard_lists_every_score_witness :
  Permutation (map leaderboard_tuple (high_scores tied_scores)) (topN tied_scores 10).
Proof.
  apply (leaderboard_lists_every_score tied_scores 10 _ (topN_is_an_answer _ _)).
  right. simpl. lia.
Defined.

(** *** The first decisions of a new game *)

Lemma distinct_keysb_NoDup (keys : list string) :
  distinct_keysb keys = true -> NoDup keys.
Proof.
  induction keys as [|k rest IH]; simpl; intros H; [constructor|].
  apply andb_true_iff in H as [Hk Hrest].
  constructor; [|apply IH, Hrest].
  intros Hin. apply negb_true_iff in Hk.
  assert (Hex : existsb (String.eqb k) rest = true).
  { apply existsb_exists. exists k. split; [exact Hin | apply String.eqb_refl]. }
  congruence.
Qed.

Lemma mild_optionb_mild (o : GameOption) : mild_optionb o = true -> mild_option o.
Proof.
  unfold mild_optionb, mild_option. intros H.
  apply andb_true_iff in H as [Hkeys Hvals].
  split; [apply distinct_keysb_NoDup, Hkeys|].
  rewrite forallb_forall in Hvals. rewrite Forall_forall.
  intros c Hc. apply Z.leb_le, Hvals, Hc.
Qed.

Lemma seeded_catalog_is_mild (now : Z) (row : GameEvents.row) :
  In row (game_events (init_database (empty_db now))) ->
  Forall mild_option (GameEvents.options row).
Proof.
  intros Hin.
  assert (Hopts : In (GameEvents.options row) (map seed_options default_events)).
  { change (map seed_options default_events)
      with (map GameEvents.options (game_events (init_database (empty_db now)))).
    apply in_map, Hin. }
  assert (Hall : forallb (forallb mild_optionb) (map seed_options default_events) = true)
    by (vm_compute; reflexivity).
  rewrite forallb_forall in Hall. specialize (Hall _ Hopts).
  rewrite forallb_forall in Hall. rewrite Forall_forall.
  intros o Ho. apply mild_optionb_mild, Hall, Ho.
Qed.

Lemma index_In {A : Type} (l : list A) (i : Z) (a : A) :
  Py.index l i = Py.Ok a -> In a l.
Proof.
  unfold Py.index.
  destruct (_ || _); [discriminate|].
  destruct (nth_error l _) as [x|] eqn:Hnth; [|discriminate].
  intros H. injection H as <-. eapply nth_error_In, Hnth.
Qed.

Lemma apply_effects_lower_bound (effects s : Py.dict Z) (b : Z) :
  NoDup (Py.keys s) ->
  NoDup (Py.keys effects) ->
  Forall (fun change => -20 <= change) (Py.values effects) ->
  b <= 120 ->
  Forall (fun v => b <= v) (Py.values s) ->
  Forall (fun v => b - 20 <= v) (Py.values (apply_effects_loop effects s)).
Proof.
  intros Hs Heff Hmild Hb Hlow.
  rewrite Forall_forall in *. intros v' Hv'.
  apply in_map_iff in Hv' as ([k v''] & Heq & Hin). cbn in Heq. subst v''.
  apply get_In in Hin; [|rewrite apply_effects_loop_keys; exact Hs].
  rewrite (apply_effects_loop_get effects k Heff) in Hin.
  destruct (Py.get s k) as [v|] eqn:Hget; [|discriminate].
  assert (Hv : b <= v).
  { apply Hlow. apply (get_In s k v Hs) in Hget.
    change v with (snd (k, v)). apply in_map, Hget. }
  destruct (Py.get effects k) as [c|] eqn:Hc.
  - assert (Hcmild : -20 <= c).
    { apply Hmild. apply (get_In effects k c Heff) in Hc.
      change c with (snd (k, c)). apply in_map, Hc. }
    injection Hin as <-. lia.
  - injection Hin as <-. lia.
Qed.

Lemma stat_names_NoDup (s : Py.dict Z) : wf_stats s -> NoDup (Py.keys s).
Proof.
  intros ->. unfold stat_names.
  apply distinct_keysb_NoDup. reflexivity.
Qed.

Lemma start_game_state (player country : string) (rnd : nat) (g : Game) :
  stats (snd (start_game player country rnd g)) = new_stats /\
  db (snd (start_game player country rnd g)) = db g /\
  current_event (snd (start_game player country rnd g)) = get_random_event rnd (db g).
Proof. repeat split. Qed.

Lemma init_database_scores (file : DB) :
  high_scores (init_database file) = high_scores file.
Proof.
  unfold init_database, populate_default_events.
  destruct (count_events file >? 0); [reflexivity|].
  generalize default_events. intros events. revert file.
  induction events as [|event rest IH]; intros d; simpl; [reflexivity|].
  rewrite IH. reflexivity.
Qed.

(** What holds after [n] decisions of a game started on a fresh
    database. *)
Lemma fresh_game_inv (now : Z) (player country : string) (rnd : nat) (n : nat) (g : Game) :
  decisions n (snd (start_game player country rnd (init (empty_db now)))) g ->
  wf_stats (stats g) /\
  Forall (fun v => 50 - 20 * Z.of_nat n <= v) (Py.values (stats g)) /\
  game_events (db g) = game_events (init_database (empty_db now)) /\
  (forall event, current_event g = Some event -> Forall mild_option (options event)) /\
  ((n <= 2)%nat -> high_scores (db g) = []).
Proof.
  assert (Hdraw : forall d r event,
             game_events d = game_events (init_database (empty_db now)) ->
             get_random_event r d = Some event ->
             Forall mild_option (options event)).
  { intros d r event Hevents Hsome.
    assert (Hne : game_events d <> []).
    { intros Hnil. unfold get_random_event in Hsome. rewrite Hnil in Hsome.
      discriminate. }
    destruct (get_random_event_some r d Hne) as (row & Hin & Hrow).
    rewrite Hrow in Hsome. injection Hsome as <-. cbn.
    apply (seeded_catalog_is_mild now). rewrite <- Hevents. exact Hin. }
  intros Hrun.
  remember (snd (start_game player country rnd (init (empty_db now)))) as start
    eqn:Hstart.
  induction Hrun as [g|n g0 g i Hrun IH Hok|n g0 g r Hrun IH
                     |n g0 g name Hrun IH|n g0 g t Hrun IH];
    try specialize (IH Hstart).
  - subst g.
    destruct (start_game_state player country rnd (init (empty_db now)))
      as (-> & -> & ->).
    change (db (init (empty_db now))) with (init_database (empty_db now)).
    split; [reflexivity|]. split.
    { cbn. repeat constructor; lia. }
    split; [reflexivity|]. split; [|intros _; apply init_database_scores].
    intros event Hev.
    exact (Hdraw (init_database (empty_db now)) rnd event eq_refl Hev).
  - destruct IH as (Hwf & Hlow & Hevents & Hmild & Hscores).
    rewrite make_decision_unfold in Hok |- *.
    destruct (current_event g) as [event|] eqn:Hev; [|discriminate Hok].
    destruct (Py.index (options event) i) as [opt|e] eqn:Hidx; [|discriminate Hok].
    cbv zeta in Hok |- *. set (g1 := after_decision opt g) in *.
    assert (Hopt : mild_option opt).
    { specialize (Hmild event eq_refl). rewrite Forall_forall in Hmild.
      apply Hmild, (index_In _ _ _ Hidx). }
    destruct (after_decision_frame opt g) as (Hdb & _ & _ & Hevent).
    fold g1 in Hdb, Hevent.
    assert (Hwf1 : wf_stats (stats g1)).
    { unfold wf_stats, g1. rewrite after_decision_stats, apply_effects_loop_keys.
      exact Hwf. }
    assert (Hlow1 : Forall (fun v => 50 - 20 * Z.of_nat (S n) <= v)
                           (Py.values (stats g1))).
    { unfold g1. rewrite after_decision_stats.
      replace (50 - 20 * Z.of_nat (S n)) with (50 - 20 * Z.of_nat n - 20) by lia.
      destruct Hopt as [Hkeys Hvals].
      apply apply_effects_lower_bound; try assumption; [|lia].
      apply stat_names_NoDup, Hwf. }
    destruct (check_game_over_loop_cases (stats g1) Hwf1)
      as [[(v & Hin & Hv) (name & cause & _ & _ & Hover)] | [Hpos Hover]];
      rewrite Hover in Hok |- *.
    + destruct (game_over_screen_game cause g1) as (_ & Hstats & _).
      destruct (game_over_screen_frame cause g1) as (_ & _ & He & _ & _ & _ & _ & Hcur).
      cbv zeta in He, Hcur.
      rewrite Hstats. split; [exact Hwf1|]. split; [exact Hlow1|].
      split; [rewrite He, Hdb; exact Hevents|].
      split; [rewrite Hcur, Hevent, Hev; exact Hmild|].
      intros Hn. exfalso.
      rewrite Forall_forall in Hlow1. specialize (Hlow1 v Hin). lia.
    + cbn [snd]. split; [exact Hwf1|]. split; [exact Hlow1|].
      split; [rewrite Hdb; exact Hevents|].
      split; [rewrite Hevent, Hev; exact Hmild|].
      intros Hn. rewrite Hdb. apply Hscores. lia.
  - destruct IH as (Hwf & Hlow & Hevents & Hmild & Hscores). cbn.
    repeat split; try assumption.
    intros event. apply Hdraw, Hevents.
  - destruct IH as (Hwf & Hlow & Hevents & Hmild & Hscores).
    unfold save_game_dialog.
    destruct (String.eqb name ""); [repeat split; assumption|].
    destruct (save_game _ _ (db g)) as [d'|e] eqn:Hsave;
      [|repeat split; assumption].
    destruct (save_game_frame _ _ _ _ Hsave) as (Hhs & _ & Hge & _).
    cbn. rewrite Hhs, Hge. repeat split; assumption.
  - destruct IH as (Hwf & Hlow & Hevents & Hmild & Hscores). cbn.
    repeat split; assumption.
Qed.

(** X20: on a fresh database, seeded with the seven default events, a
    new game is never over after one or two decisions: no default option
    lowers a statistic by more than 20, so after [n <= 2] decisions every
    statistic is at least [50 - 20 n] and no score has been recorded. *)
Theorem fresh_game_survives_two_decisions (now : Z) (player country : string)
    (rnd : nat) (n : nat) (g : Game) :
  decisions n (snd (start_game player country rnd (init (empty_db now)))) g ->
  (n <= 2)%nat ->
  Forall (fun v => 50 - 20 * Z.of_nat n <= v) (Py.values (stats g)) /\
  check_game_over_loop (stats g) = Py.Ok (false, "") /\
  high_scores (db g) = [].
Proof.
  intros Hrun Hn.
  destruct (fresh_game_inv now player country rnd n g Hrun)
    as (Hwf & Hlow & _ & _ & Hscores).
  split; [exact Hlow|]. split; [|exact (Hscores Hn)].
  destruct (check_game_over_loop_cases (stats g) Hwf)
    as [[(v & Hin & Hv) _] | [_ Hover]]; [|exact Hover].
  rewrite Forall_forall in Hlow. specialize (Hlow v Hin). lia.
Qed.

Lemma fresh_game_survives_two_decisions_witness :
  let g0 := snd (start_game "Ada" "Utopia" 3 (init (empty_db 0))) in
  let g := snd (make_decision 1 (snd (make_decision 1 g0))) in
  decisions 2 g0 g /\
  check_game_over_loop (stats g) = Py.Ok (false, "") /\
  high_scores (db g) = [].
Proof.
  intros g0 g.
  assert (Hrun : decisions 2 g0 g).
  { apply decisions_decide; [|vm_compute; reflexivity].
    apply decisions_decide; [|vm_compute; reflexivity].
    apply decisions_none. }
  split; [exact Hrun|].
  assert (Hn : (2 <= 2)%nat) by lia.
  exact (proj2 (fresh_game_survives_two_decisions 0 "Ada" "Utopia" 3 2 g Hrun Hn)).
Defined.

(** *** From the last decision to the leaderboard *)

(** X21: a decision that ends the game puts the run on the leaderboard:
    with a negative limit, or one of at least the number of stored
    scores, every answer of [get_leaderboard] holds an entry with the
    player, the country, the years since 2024 and the turn count of the
    finished run. *)
Theorem finished_run_reaches_leaderboard (g : Game) (event : Event)
    (choice_index : Z) (chosen_option : GameOption) (n : Z)
    (out : list leaderboard_entry) :
  current_event g = Some event ->
  Py.index (options event) choice_index = Py.Ok chosen_option ->
  wf_stats (stats g) ->
  let g' := snd (make_decision choice_index g) in
  (exists v, In v (Py.values (stats g')) /\ v <= 0) ->
  get_leaderboard (db g') n out ->
  n < 0 \/ Z.of_nat (List.length (high_scores (db g'))) <= n ->
  exists cause time,
    In (player_name g, country_name g, current_year g' - 2024,
        current_turn g + 1, cause, time) out.
Proof.
  intros Hev Hidx Hwf g' Hover (rows & (sorted & Hperm & _ & ->) & ->) Hn.
  assert (Hall : sql_limit n sorted = sorted).
  { unfold sql_limit. destruct (Z.ltb_spec n 0); [reflexivity|].
    apply firstn_all2. rewrite <- (Permutation_length Hperm). lia. }
  rewrite Hall. clear Hall Hn.
  subst g'. revert Hover Hperm.
  rewrite make_decision_unfold, Hev, Hidx. cbv zeta.
  set (g1 := after_decision chosen_option g).
  assert (Hwf1 : wf_stats (stats g1)).
  { unfold wf_stats, g1.
    rewrite after_decision_stats, apply_effects_loop_keys. exact Hwf. }
  destruct (after_decision_frame chosen_option g) as (_ & Hcountry & Hplayer & _).
  fold g1 in Hcountry, Hplayer.
  destruct (check_game_over_loop_cases (stats g1) Hwf1)
    as [[_ (name & cause & _ & _ & Hcheck)] | [Hpos Hcheck]]; rewrite Hcheck.
  - destruct (game_over_screen_game cause g1) as (_ & _ & _ & Hyear).
    destruct (game_over_screen_row cause g1 Hwf1)
      as (row & Hrow & _ & Hp & Hc & Hy & Ht & _ & _).
    intros _ Hperm. rewrite Hrow in Hperm. cbn [high_scores with_high_scores] in Hperm.
    exists (HighScores.cause_of_downfall row), (HighScores.achieved_at row).
    rewrite Hyear, <- Hy, <- Hplayer, <- Hp, <- Hcountry, <- Hc.
    replace (current_turn g + 1) with (HighScores.turns_survived row)
      by (rewrite Ht; apply after_decision_turn).
    change (In (leaderboard_tuple row) (map leaderboard_tuple sorted)).
    apply in_map. eapply Permutation_in; [exact Hperm|].
    apply in_or_app. right. left. reflexivity.
  - cbn [snd]. intros (v & Hin & Hv) _. specialize (Hpos v Hin). lia.
Qed.

Lemma finished_run_reaches_leaderboard_witness :
  let event := {| title := "Currency crash"; description := "The currency collapses.";
                  options := [ {| text := "Default on the debt";
                                  effects := [("economy", -60)];
                                  reason := "Creditors leave." |} ] |} in
  let g := set_current_event new_game (Some event) in
  let g' := snd (make_decision 0 g) in
  exists cause time, In ("Ada", "Utopia", 0, 1, cause, time) (topN (db g') 10).
Proof.
  intros event g g'.
  assert (Hover : exists v, In v (Py.values (stats g')) /\ v <= 0).
  { exists 0. split; [vm_compute; auto 10 | lia]. }
  assert (Hn : 10 < 0 \/ Z.of_nat (List.length (high_scores (db g'))) <= 10).
  { right. vm_compute. discriminate. }
  exact (finished_run_reaches_leaderboard g event 0 _ 10 _ eq_refl eq_refl eq_refl
           Hover (topN_is_an_answer (db g') 10) Hn).
Defined.

(** *** Opening the database *)

Lemma fold_insert_event_frame (events : list seed_event) :
  forall d,
    game_sessions (fold_left insert_event events d) = game_sessions d /\
    game_sessions_seq (fold_left insert_event events d) = game_sessions_seq d /\
    high_scores_seq (fold_left insert_event events d) = high_scores_seq d /\
    clock (fold_left insert_event events d) = clock d /\
    exists rows,
      game_events (fold_left insert_event events d) = game_events d ++ rows /\
      List.length rows = List.length events.
Proof.
  induction events as [|event rest IH]; intros d; simpl.
  - repeat split. exists []. split; [symmetry; apply app_nil_r | reflexivity].
  - destruct (IH (insert_event d event)) as (-> & -> & -> & -> & rows & -> & Hlen).
    repeat split.
    destruct (insert_event_events d event) as [row ->].
    exists (row :: rows). rewrite <- app_assoc. split; [reflexivity|].
    simpl. rewrite Hlen. reflexivity.
Qed.

(** X22: opening the database keeps every saved session and every
    recorded score of the file and the events it already holds; the only
    change it can make is to append the seven default events to an empty
    catalog. *)
Theorem opening_keeps_stored_data (file : DB) :
  game_sessions (db (init file)) = game_sessions file /\
  high_scores (db (init file)) = high_scores file /\
  (game_events file <> [] -> db (init file) = file) /\
  (game_events file = [] -> List.length (game_events (db (init file))) = 7%nat).
Proof.
  change (db (init file)) with (init_database file).
  split; [|split; [apply init_database_scores|split]].
  - unfold init_database, populate_default_events.
    destruct (count_events file >? 0); [reflexivity|].
    apply fold_insert_event_frame.
  - apply populate_default_events_nonempty.
  - intros Hempty. apply (populate_default_events_empty file Hempty).
Qed.

Lemma opening_keeps_stored_data_witness :
  game_sessions (db (init tied_scores)) = game_sessions tied_scores /\
  high_scores (db (init tied_scores)) = high_scores tied_scores /\
  List.length (game_events (db (init tied_scores))) = 7%nat.
Proof.
  destruct (opening_keeps_stored_data tied_scores) as (Hs & Hh & _ & Hseed).
  split; [exact Hs|]. split; [exact Hh|].
  exact (Hseed eq_refl).
Defined.
